(** * HistoryBlock (regular-expression fork): the background script's
      blacklist store and visit filter

    A shallow embedding of [src/options/options.js].  The file holds two
    classes: [Options] (the options page, lines 1-183) and [HistoryBlock]
    (the background script, lines 184-427).  The store operations and the
    visit decision are methods of [HistoryBlock]; they are embedded below
    under their own names, in a state-and-exception monad over the
    synchronized storage area and a trace of the outward effects
    (storage writes, broadcast messages, history deletions).

    Conventions.
    - A JavaScript string is a Rocq [string]; each [ascii] stands for one
      code unit in the range 0..255.
    - A property that reads as [undefined] is [None].
    - Every [async] method is run to completion: an [await] is sequencing,
      a rejected promise is a thrown exception. *)

From Stdlib Require Import String Ascii List Bool Arith ZArith Lia.
Import ListNotations.
Open Scope string_scope.
Open Scope list_scope.

(** ** Values, exceptions and outcomes *)

(** The values a method can hand back to its caller.  Every method of
    [HistoryBlock] ends without a [return] of its own value, so only
    [VUndefined] is ever produced; the other constructors are there to
    state what the methods do not return. *)
Inductive Value : Type :=
| VUndefined
| VBoolean (b : bool)
| VNumber (n : Z).

Inductive Exn : Type :=
| TypeError
| SyntaxError.

Inductive Outcome (A : Type) : Type :=
| Returned (a : A)
| Thrown (e : Exn).

Arguments Returned {A} a.
Arguments Thrown {A} e.

(** ** Strings and arrays, as the script uses them *)

Module JS.

(** [s.split(',')]: n commas give n+1 pieces; the empty string gives one
    empty piece. *)
Fixpoint split_comma (s : string) : list string :=
  match s with
  | EmptyString => [EmptyString]
  | String c r =>
      if Ascii.eqb c "," then EmptyString :: split_comma r
      else match split_comma r with
           | h :: t => String c h :: t
           | [] => [String c EmptyString]
           end
  end.

(** White space and line terminators among the code units 0..255:
    TAB, LF, VT, FF, CR, SP and NBSP. *)
Definition is_white (c : ascii) : bool :=
  let n := nat_of_ascii c in
  (((9 <=? n) && (n <=? 13)) || (n =? 32) || (n =? 160))%nat.

Fixpoint trimStart (s : string) : string :=
  match s with
  | EmptyString => EmptyString
  | String c r => if is_white c then trimStart r else s
  end.

Fixpoint trimEnd (s : string) : string :=
  match s with
  | EmptyString => EmptyString
  | String c r =>
      match trimEnd r with
      | EmptyString => if is_white c then EmptyString else String c EmptyString
      | r' => String c r'
      end
  end.

(** [s.trim()] *)
Definition trim (s : string) : string := trimEnd (trimStart s).

(** A string is truthy when it is not empty. *)
Definition truthy (s : string) : bool := negb (String.eqb s "").

(** [a.includes(x)] on an array of strings: exact comparison. *)
Definition includes (x : string) (a : list string) : bool :=
  existsb (String.eqb x) a.

(** [a.indexOf(x)]: the first index holding [x], or -1. *)
Fixpoint indexOf (x : string) (a : list string) : Z :=
  match a with
  | [] => (-1)%Z
  | y :: r =>
      if String.eqb y x then 0%Z
      else let i := indexOf x r in
           if (i <? 0)%Z then (-1)%Z else (i + 1)%Z
  end.

(** [a.splice(start, 1)]: a negative [start] counts from the end, a
    [start] past the end removes nothing. *)
Definition splice1 (start : Z) (a : list string) : list string :=
  let len := Z.of_nat (length a) in
  let from := if (start <? 0)%Z then Z.max (len + start) 0 else Z.min start len in
  firstn (Z.to_nat from) a ++ skipn (S (Z.to_nat from)) a.

End JS.

(** ** The synchronized storage area and the outside world *)

(** The keys of [browser.storage.sync] the script touches: [blacklist]
    (written by [HistoryBlock]), [listMode] (written by
    [changeListMode]) and [matching] (only read, by the options page). *)
Record Storage : Type := mkStorage {
  blacklist : option (list string);
  listMode : option string;
  matching : option string
}.

Definition empty_storage : Storage := mkStorage None None None.

(** The pattern sequence a caller sees: an absent list reads as empty. *)
Definition patterns (st : Storage) : list string :=
  match blacklist st with
  | Some l => l
  | None => []
  end.

(** Outward effects, in the order they happen. *)
Inductive Event : Type :=
| StorageSetBlacklist (l : list string)
| StorageSetListMode (m : option string)
| StorageRemoveBlacklist
| SendMessage (action : string)
| HistoryDeleteUrl (url : string).

Record World : Type := mkWorld {
  storage : Storage;
  trace : list Event
}.

Definition emit (e : Event) (w : World) : World :=
  mkWorld (storage w) (trace w ++ [e]).

(** ** The monad of the script's methods *)

Definition M (A : Type) : Type := World -> Outcome A * World.

Definition ret {A} (a : A) : M A := fun w => (Returned a, w).

Definition throw {A} (e : Exn) : M A := fun w => (Thrown e, w).

Definition bind {A B} (m : M A) (k : A -> M B) : M B :=
  fun w =>
    match m w with
    | (Returned a, w') => k a w'
    | (Thrown e, w') => (Thrown e, w')
    end.

Declare Scope js_scope.
Delimit Scope js_scope with js.
Notation "x <- m ;; k" := (bind m (fun x => k))
  (at level 100, m at next level, right associativity) : js_scope.
Notation "m ;;; k" := (bind m (fun _ => k))
  (at level 100, right associativity) : js_scope.
Open Scope js_scope.

(** [browser.storage.sync.get()]: a snapshot of the whole area. *)
Definition storage_get : M Storage := fun w => (Returned (storage w), w).

(** [browser.storage.sync.set({blacklist: l})] *)
Definition storage_set_blacklist (l : list string) : M unit :=
  fun w =>
    (Returned tt,
     mkWorld (mkStorage (Some l) (listMode (storage w)) (matching (storage w)))
             (trace w ++ [StorageSetBlacklist l])).

(** [browser.storage.sync.set({listMode: m})].  A value that reads as
    [undefined] is stored so that it reads as [undefined] again. *)
Definition storage_set_listMode (m : option string) : M unit :=
  fun w =>
    (Returned tt,
     mkWorld (mkStorage (blacklist (storage w)) m (matching (storage w)))
             (trace w ++ [StorageSetListMode m])).

(** [browser.storage.sync.remove('blacklist')] *)
Definition storage_remove_blacklist : M unit :=
  fun w =>
    (Returned tt,
     mkWorld (mkStorage None (listMode (storage w)) (matching (storage w)))
             (trace w ++ [StorageRemoveBlacklist])).

(** [browser.runtime.sendMessage({action: a})], not awaited. *)
Definition sendMessage (a : string) : M unit :=
  fun w => (Returned tt, emit (SendMessage a) w).

(** [browser.history.deleteUrl({url: u})] *)
Definition history_deleteUrl (u : string) : M unit :=
  fun w => (Returned tt, emit (HistoryDeleteUrl u) w).

(** Using a value as an array ([.includes], [.length], [.push]) throws a
    [TypeError] when the value is [undefined]. *)
Definition as_array (v : option (list string)) : M (list string) :=
  match v with
  | Some l => ret l
  | None => throw TypeError
  end.

(** ** class HistoryBlock *)

(** The object's own state.  [importBlacklist] reads [this.hash]; the
    constructor (lines 194-197) assigns no such property, so on the
    object the script creates it reads as [undefined]. *)
Record HistoryBlock : Type := mkHistoryBlock {
  hash : option (string -> bool)
}.

(** [new HistoryBlock()] *)
Definition new_HistoryBlock : HistoryBlock := mkHistoryBlock None.

(** Lines 333-343. *)
Definition getBlacklist : M (option (list string)) :=
  st <- storage_get ;;
  match blacklist st with
  | None =>
      storage_set_blacklist [] ;;;
      st' <- storage_get ;;
      ret (blacklist st')
  | Some l => ret (Some l)
  end.

(** Lines 317-325. *)
Definition clearBlacklist : M Value :=
  storage_remove_blacklist ;;;
  getBlacklist ;;;
  sendMessage "blacklistUpdated" ;;;
  ret VUndefined.

(** The loop of lines 357-362 over the pieces still to visit, with the
    local array [bl] as it stands. *)
Fixpoint importBlacklist_loop (this : HistoryBlock) (blarr : list string)
    (bl : list string) : M (list string) :=
  match blarr with
  | [] => ret bl
  | piece :: rest =>
      let h := JS.trim piece in
      if negb (JS.includes h bl) then
        match hash this with
        | None => throw TypeError
        | Some tester =>
            if tester h then importBlacklist_loop this rest (bl ++ [h])
            else importBlacklist_loop this rest bl
        end
      else importBlacklist_loop this rest bl
  end.

(** Lines 352-369. *)
Definition importBlacklist (this : HistoryBlock) (list : string) : M Value :=
  if JS.truthy list then
    let blarr := JS.split_comma list in
    v <- getBlacklist ;;
    bl <- as_array v ;;
    bl' <- importBlacklist_loop this blarr bl ;;
    storage_set_blacklist bl' ;;;
    sendMessage "blacklistUpdated" ;;;
    ret VUndefined
  else ret VUndefined.

(** Lines 380-393. *)
Definition block (regex : string) : M Value :=
  v <- getBlacklist ;;
  bl <- as_array v ;;
  if negb (JS.includes regex bl) then
    storage_set_blacklist (bl ++ [regex]) ;;;
    sendMessage "blacklistUpdated" ;;;
    ret VUndefined
  else ret VUndefined.

(** Lines 404-415. *)
Definition unblock (regex : string) : M Value :=
  v <- getBlacklist ;;
  bl <- as_array v ;;
  if JS.includes regex bl then
    storage_set_blacklist (JS.splice1 (JS.indexOf regex bl) bl) ;;;
    sendMessage "blacklistUpdated" ;;;
    ret VUndefined
  else ret VUndefined.

(** [!m] for a value that is a string or reads as [undefined]. *)
Definition falsy (m : option string) : bool :=
  match m with
  | None => true
  | Some s => negb (JS.truthy s)
  end.

(** Lines 417-423.  The argument is the message's [listMode] property:
    a string, or [None] when it reads as [undefined]. *)
Definition changeListMode (m : option string) : M Value :=
  m' <- (if falsy m then st <- storage_get ;; ret (listMode st) else ret m) ;;
  storage_set_listMode m' ;;;
  ret VUndefined.

(** ** The visit filter *)

Section VisitFilter.

(** The runtime's [new RegExp(p)]: [None] when the constructor throws a
    [SyntaxError], otherwise the [test] method of the expression it
    builds.  The expression has no flags, so [test] keeps no position
    between calls and is a function of the subject alone. *)
Variable RegExp : string -> option (string -> bool).

(** The loop of lines 293-300 over the patterns still to try; the
    result is [found]. *)
Fixpoint scan (url : string) (bl : list string) : M bool :=
  match bl with
  | [] => ret false
  | p :: rest =>
      match RegExp p with
      | None => throw SyntaxError
      | Some test => if test url then ret true else scan url rest
      end
  end.

(** [storage.listMode === 'blacklist'] *)
Definition isBlacklist (st : Storage) : bool :=
  match listMode st with
  | Some m => String.eqb m "blacklist"
  | None => false
  end.

(** Lines 284-309; [url] is [info.url]. *)
Definition onPageVisited (url : string) : M Value :=
  v <- getBlacklist ;;
  st <- storage_get ;;
  let isBl := isBlacklist st in
  bl <- as_array v ;;
  found <- scan url bl ;;
  if (isBl && found) || (negb isBl && negb found) then
    history_deleteUrl url ;;;
    ret VUndefined
  else ret VUndefined.

End VisitFilter.

(** ** class Options: the caller of the mode switch *)

(** [Options.changeListMode] (lines 117-123).  The message it sends is
    handled by [HistoryBlock.onMessage] (lines 247-248), which calls
    [changeListMode] with the message's [listMode];
    [renderBlacklistMatching] only reads the storage area. *)
Definition Options_changeListMode (m : string) : M Value :=
  (if String.eqb m "whitelist" || String.eqb m "blacklist"
   then changeListMode (Some m) else ret VUndefined) ;;;
  storage_get ;;;
  ret VUndefined.

(** ** Vocabulary of the statements *)

(** The world after the first-access initialisation of [getBlacklist]:
    an absent list is written as the empty list, a present one is left
    alone. *)
Definition load (w : World) : World :=
  match blacklist (storage w) with
  | Some _ => w
  | None =>
      mkWorld (mkStorage (Some []) (listMode (storage w)) (matching (storage w)))
              (trace w ++ [StorageSetBlacklist []])
  end.

(** The world after one write of the whole list. *)
Definition persist (l : list string) (w : World) : World :=
  mkWorld (mkStorage (Some l) (listMode (storage w)) (matching (storage w)))
          (trace w ++ [StorageSetBlacklist l]).

(** The world after one write of the mode. *)
Definition persist_mode (m : option string) (w : World) : World :=
  mkWorld (mkStorage (blacklist (storage w)) m (matching (storage w)))
          (trace w ++ [StorageSetListMode m]).

(** The pieces of a comma-separated list that an import adds to a store
    already holding [seen]: every piece that is not in [seen] and did not
    occur earlier in the list, in the order of the list. *)
Fixpoint fresh_tokens (seen : list string) (tokens : list string) : list string :=
  match tokens with
  | [] => []
  | t :: r =>
      if JS.includes t seen then fresh_tokens seen r
      else t :: fresh_tokens (t :: seen) r
  end.

(** The list without the first occurrence of [x]. *)
Fixpoint remove_first (x : string) (l : list string) : list string :=
  match l with
  | [] => []
  | y :: r => if String.eqb y x then r else y :: remove_first x r
  end.

Section Matching.

Variable RegExp : string -> option (string -> bool).

(** The pattern is a regular expression the runtime accepts. *)
Definition valid (p : string) : Prop := RegExp p <> None.

(** The pattern is accepted and its expression is found in the address. *)
Definition matches (p url : string) : Prop :=
  exists test, RegExp p = Some test /\ test url = true.

(** The pattern is accepted and its expression is not found in the
    address. *)
Definition rejects (p url : string) : Prop :=
  exists test, RegExp p = Some test /\ test url = false.

(** The three ways a visit can end: the address is deleted from the
    history, it is kept, or the handler throws before deciding. *)
Definition purged (url : string) (w : World) : Prop :=
  onPageVisited RegExp url w =
  (Returned VUndefined, emit (HistoryDeleteUrl url) (load w)).

Definition retained (url : string) (w : World) : Prop :=
  onPageVisited RegExp url w = (Returned VUndefined, load w).

Definition aborted (url : string) (w : World) : Prop :=
  onPageVisited RegExp url w = (Thrown SyntaxError, load w).

End Matching.

(** The same world with another value under the key [listMode]. *)
Definition with_listMode (m : option string) (w : World) : World :=
  mkWorld (mkStorage (blacklist (storage w)) m (matching (storage w)))
          (trace w).

(** ** A runtime for the examples *)

Module Sample.

(** [p] occurs somewhere in [s]. *)
Fixpoint contains (p s : string) : bool :=
  String.prefix p s ||
  match s with
  | EmptyString => false
  | String _ r => contains p r
  end.

(** The characters with a meaning of their own in a pattern. *)
Definition syntax_character (c : ascii) : bool :=
  existsb (Ascii.eqb c)
          (list_ascii_of_string "^$\.*+?()[]{}|").

Fixpoint ordinary (p : string) : bool :=
  match p with
  | EmptyString => true
  | String c r => negb (syntax_character c) && ordinary r
  end.

(** A fragment of the runtime's constructor, on the two kinds of
    pattern the examples use: a pattern of ordinary characters is
    searched for as it stands, anywhere in the subject; the pattern
    ["("] is an unterminated group, which the constructor rejects.
    The fragment stands for the runtime on these patterns only: the
    examples use no other pattern with a syntax character, and the
    general statements are about every runtime, not about this one. *)
Definition RegExp (p : string) : option (string -> bool) :=
  if ordinary p then Some (contains p)
  else None.

End Sample.

Definition fresh (st : Storage) : World := mkWorld st [].

(** ** The listeners of the background script *)

(** A message as [onMessage] reads it: its [action] and the payload
    properties.  The payloads [url] and [blacklist] are strings, as
    every sender in the file provides them; [listMode] is a string, or
    [None] when it reads as [undefined].  A property that the action
    does not carry is not read. *)
Record Message : Type := mkMessage {
  action : string;
  msg_url : string;
  msg_blacklist : string;
  msg_listMode : option string
}.

(** Lines 237-250.  The last case awaits [changeListMode] and falls out
    of the [switch]; there is no default case. *)
Definition onMessage (this : HistoryBlock) (message : Message) : M Value :=
  if String.eqb (action message) "addToBlacklist" then
    block (msg_url message)
  else if String.eqb (action message) "importBlacklist" then
    importBlacklist this (msg_blacklist message)
  else if String.eqb (action message) "removeFromBlacklist" then
    unblock (msg_url message)
  else if String.eqb (action message) "clearBlacklist" then
    clearBlacklist
  else if String.eqb (action message) "changeListMode" then
    changeListMode (msg_listMode message) ;;;
    ret VUndefined
  else ret VUndefined.

(** Lines 264-271; [menuItemId] is [info.menuItemId] and [url] is
    [tab.url]. *)
Definition onContextMenuItemClicked (menuItemId url : string) : M Value :=
  if String.eqb menuItemId "blockthis" then block url
  else if String.eqb menuItemId "unblockthis" then unblock url
  else ret VUndefined.

(** What the three listeners of [attachEventListeners] (lines 219-228)
    can be called with. *)
Inductive Incoming : Type :=
| Visited (url : string)
| Clicked (menuItemId url : string)
| Received (message : Message).

Section Listeners.

Variable RegExp : string -> option (string -> bool).

Definition listener (this : HistoryBlock) (i : Incoming) : M Value :=
  match i with
  | Visited url => onPageVisited RegExp url
  | Clicked menuItemId url => onContextMenuItemClicked menuItemId url
  | Received message => onMessage this message
  end.

(** The world after a sequence of events, each handled to its end before
    the next; a handler that throws rejects its own promise and the
    script goes on with the next event. *)
Fixpoint dispatch (this : HistoryBlock) (events : list Incoming) (w : World)
    : World :=
  match events with
  | [] => w
  | i :: rest => dispatch this rest (snd (listener this i w))
  end.

End Listeners.

(** ** class Options: the actions of the options page *)

(** The page's [browser.runtime.sendMessage(message)], awaited: the
    message reaches [onMessage] of the background script [this], and the
    promise settles as the listener's does. *)
Definition runtime_sendMessage (this : HistoryBlock) (message : Message)
    : M Value :=
  onMessage this message.

(** [Options.renderBlacklist] (lines 168-180) reads the storage area and
    writes to the document only; the document is not part of the world. *)
Definition Options_renderBlacklist : M Value :=
  storage_get ;;;
  ret VUndefined.

(** The loops of lines 74-76 and 109-111: one message per piece. *)
Fixpoint Options_send_each (this : HistoryBlock) (act : string)
    (urls : list string) : M unit :=
  match urls with
  | [] => ret tt
  | u :: rest =>
      runtime_sendMessage this (mkMessage act u "" None) ;;;
      Options_send_each this act rest
  end.

(** [if(input)] on what [prompt] returned: [None] is [null] (the prompt
    was dismissed). *)
Definition entered (input : option string) : bool :=
  match input with
  | Some s => JS.truthy s
  | None => false
  end.

Definition text (input : option string) : string :=
  match input with
  | Some s => s
  | None => ""
  end.

(** [Options.addToBlacklist] (lines 67-80); [input] is what [prompt]
    returned. *)
Definition Options_addToBlacklist (this : HistoryBlock) (input : option string)
    : M Value :=
  if entered input then
    Options_send_each this "addToBlacklist" (JS.split_comma (text input)) ;;;
    Options_renderBlacklist
  else ret VUndefined.

(** [Options.removeFromBlacklist] (lines 104-115). *)
Definition Options_removeFromBlacklist (this : HistoryBlock)
    (input : option string) : M Value :=
  if entered input then
    Options_send_each this "removeFromBlacklist" (JS.split_comma (text input)) ;;;
    Options_renderBlacklist
  else ret VUndefined.

(** [Options.importBlacklist] (lines 89-95). *)
Definition Options_importBlacklist (this : HistoryBlock) (input : option string)
    : M Value :=
  if entered input then
    runtime_sendMessage this (mkMessage "importBlacklist" "" (text input) None) ;;;
    ret VUndefined
  else ret VUndefined.

(** [Options.resetBlacklist] (lines 53-58); [confirmed] is what [confirm]
    returned. *)
Definition Options_resetBlacklist (this : HistoryBlock) (confirmed : bool)
    : M Value :=
  if confirmed then
    runtime_sendMessage this (mkMessage "clearBlacklist" "" "" None) ;;;
    Options_renderBlacklist
  else ret VUndefined.

(** The addresses the history was asked to forget, in order. *)
Fixpoint deleted_urls (tr : list Event) : list string :=
  match tr with
  | [] => []
  | HistoryDeleteUrl u :: rest => u :: deleted_urls rest
  | _ :: rest => deleted_urls rest
  end.

(** The addresses of the visits among the events. *)
Fixpoint visited_urls (events : list Incoming) : list string :=
  match events with
  | [] => []
  | Visited u :: rest => u :: visited_urls rest
  | _ :: rest => visited_urls rest
  end.

(** * Properties *)

(** ** Arrays *)

Lemma includes_In : forall x l, JS.includes x l = true <-> In x l.
Proof.
  intros x l. unfold JS.includes. rewrite existsb_exists. split.
  - intros [y [Hy E]]. apply String.eqb_eq in E. now subst.
  - intros H. exists x. split; [assumption | apply String.eqb_refl].
Qed.

Lemma includes_not_In : forall x l, JS.includes x l = false <-> ~ In x l.
Proof.
  intros x l. rewrite <- includes_In. destruct (JS.includes x l); split; congruence.
Qed.

Lemma includes_ext : forall l l' x,
  (forall y, In y l <-> In y l') -> JS.includes x l = JS.includes x l'.
Proof.
  intros l l' x H. destruct (JS.includes x l') eqn:E.
  - apply includes_In. apply H. now apply includes_In.
  - apply includes_not_In. intro K. apply H in K.
    apply includes_In in K. congruence.
Qed.

(** Where [indexOf] points when the element is there, and what cutting
    one element out at that index leaves. *)
Lemma indexOf_first : forall x pre post,
  ~ In x pre ->
  JS.indexOf x (pre ++ x :: post) = Z.of_nat (length pre).
Proof.
  intros x pre post. induction pre as [|y pre IH]; intros Hn; simpl.
  - now rewrite String.eqb_refl.
  - destruct (String.eqb y x) eqn:E.
    + apply String.eqb_eq in E. subst. exfalso. apply Hn. now left.
    + rewrite IH by (intro K; apply Hn; now right).
      destruct (Z.of_nat (length pre) <? 0)%Z eqn:L;
        [apply Z.ltb_lt in L; lia | simpl length; lia].
Qed.

Lemma cut_at_length : forall (pre post : list string) x,
  firstn (length pre) (pre ++ x :: post)
    ++ skipn (S (length pre)) (pre ++ x :: post) = pre ++ post.
Proof.
  intros pre post x. induction pre as [|y pre IH]; simpl.
  - reflexivity.
  - f_equal. exact IH.
Qed.

Lemma splice1_at : forall (pre post : list string) x,
  JS.splice1 (Z.of_nat (length pre)) (pre ++ x :: post) = pre ++ post.
Proof.
  intros pre post x. unfold JS.splice1.
  assert (L : (Z.of_nat (length pre) <? 0)%Z = false)
    by (apply Z.ltb_ge; lia).
  rewrite L, Z.min_l by (rewrite length_app; simpl length; lia).
  rewrite Nat2Z.id. apply cut_at_length.
Qed.

Lemma in_first_split : forall x (l : list string),
  In x l -> exists pre post, l = pre ++ x :: post /\ ~ In x pre.
Proof.
  intros x l. induction l as [|y l IH]; intros H; [contradiction|].
  destruct (string_dec y x) as [->|Hne].
  - exists [], l. split; [reflexivity | intros []].
  - destruct H as [->|H]; [congruence|].
    destruct (IH H) as [pre [post [-> Hn]]].
    exists (y :: pre), post. split; [reflexivity|].
    intros [K|K]; [congruence | contradiction].
Qed.

Lemma remove_first_split : forall x pre post,
  ~ In x pre -> remove_first x (pre ++ x :: post) = pre ++ post.
Proof.
  intros x pre post. induction pre as [|y pre IH]; intros Hn; simpl.
  - now rewrite String.eqb_refl.
  - destruct (String.eqb y x) eqn:E.
    + apply String.eqb_eq in E. subst. exfalso. apply Hn. now left.
    + rewrite IH by (intro K; apply Hn; now right). reflexivity.
Qed.

Lemma NoDup_snoc : forall (l : list string) x,
  NoDup l -> ~ In x l -> NoDup (l ++ [x]).
Proof.
  intros l x Hl Hx. induction Hl as [|y l Hy Hl IH]; simpl.
  - constructor; [intros [] | constructor].
  - constructor.
    + rewrite in_app_iff. intros [K|[K|[]]]; [contradiction|].
      subst. apply Hx. now left.
    + apply IH. intro K. apply Hx. now right.
Qed.

Lemma NoDup_drop_middle : forall (pre post : list string) x,
  NoDup (pre ++ x :: post) -> NoDup (pre ++ post).
Proof.
  intros pre post x H. now apply NoDup_remove_1 in H.
Qed.

(** ** The first-access initialisation *)

Lemma getBlacklist_run : forall w,
  getBlacklist w = (Returned (Some (patterns (storage w))), load w).
Proof.
  intros [[b m g] tr]. unfold getBlacklist, load, patterns, bind, storage_get.
  simpl. destruct b; reflexivity.
Qed.

Lemma load_present : forall w l,
  blacklist (storage w) = Some l -> load w = w.
Proof. intros w l H. unfold load. now rewrite H. Qed.

Lemma load_patterns : forall w, patterns (storage (load w)) = patterns (storage w).
Proof.
  intros [[b m g] tr]. unfold load, patterns. simpl. destruct b; reflexivity.
Qed.

Lemma load_blacklist : forall w,
  blacklist (storage (load w)) = Some (patterns (storage w)).
Proof.
  intros [[b m g] tr]. unfold load, patterns. simpl. destruct b; reflexivity.
Qed.

Lemma load_listMode : forall w, listMode (storage (load w)) = listMode (storage w).
Proof.
  intros [[b m g] tr]. unfold load. simpl. destruct b; reflexivity.
Qed.

Lemma patterns_present : forall st l, blacklist st = Some l -> patterns st = l.
Proof. intros st l H. unfold patterns. now rewrite H. Qed.

Lemma in_patterns_present : forall w x,
  In x (patterns (storage w)) -> load w = w.
Proof.
  intros w x H. unfold load. unfold patterns in H.
  destruct (blacklist (storage w)); [reflexivity | contradiction].
Qed.

(** ** What one call of each store operation does *)

Ltac run_load :=
  unfold bind; rewrite getBlacklist_run; cbn [as_array ret].

Lemma block_run : forall regex w,
  block regex w =
  if JS.includes regex (patterns (storage w))
  then (Returned VUndefined, load w)
  else (Returned VUndefined,
        emit (SendMessage "blacklistUpdated")
             (persist (patterns (storage w) ++ [regex]) (load w))).
Proof.
  intros regex w. unfold block. run_load.
  destruct (JS.includes regex (patterns (storage w))); reflexivity.
Qed.

Lemma unblock_run : forall regex w,
  unblock regex w =
  if JS.includes regex (patterns (storage w))
  then (Returned VUndefined,
        emit (SendMessage "blacklistUpdated")
             (persist (JS.splice1 (JS.indexOf regex (patterns (storage w)))
                                  (patterns (storage w)))
                      (load w)))
  else (Returned VUndefined, load w).
Proof.
  intros regex w. unfold unblock. run_load.
  destruct (JS.includes regex (patterns (storage w))); reflexivity.
Qed.

Lemma clearBlacklist_run : forall w,
  clearBlacklist w =
  (Returned VUndefined,
   mkWorld (mkStorage (Some []) (listMode (storage w)) (matching (storage w)))
           (trace w ++ [StorageRemoveBlacklist; StorageSetBlacklist [];
                        SendMessage "blacklistUpdated"])).
Proof.
  intros [[b m g] tr]. unfold clearBlacklist, bind, storage_remove_blacklist.
  rewrite getBlacklist_run. unfold load, sendMessage, emit, ret. simpl.
  now rewrite <- !app_assoc.
Qed.

Lemma changeListMode_run : forall m w,
  changeListMode m w =
  (Returned VUndefined,
   persist_mode (if falsy m then listMode (storage w) else m) w).
Proof.
  intros m w. unfold changeListMode, bind.
  destruct (falsy m); reflexivity.
Qed.

(** The import loop touches neither the storage area nor the trace, and
    with a tester in [this.hash] it always runs to its end. *)
Lemma importBlacklist_loop_world : forall this blarr bl w,
  snd (importBlacklist_loop this blarr bl w) = w.
Proof.
  intros this blarr. induction blarr as [|piece rest IH]; intros bl w; simpl.
  - reflexivity.
  - destruct (JS.includes (JS.trim piece) bl); simpl; [apply IH|].
    destruct (hash this) as [tester|]; [|reflexivity].
    destruct (tester (JS.trim piece)); apply IH.
Qed.

Lemma fresh_tokens_ext : forall tokens seen seen',
  (forall y, In y seen <-> In y seen') ->
  fresh_tokens seen tokens = fresh_tokens seen' tokens.
Proof.
  induction tokens as [|t r IH]; intros seen seen' H; simpl.
  - reflexivity.
  - rewrite (includes_ext seen seen' t H).
    destruct (JS.includes t seen'); [now apply IH|].
    f_equal. apply IH. intros y. simpl. now rewrite H.
Qed.

Lemma importBlacklist_loop_tested : forall this tester blarr bl w,
  hash this = Some tester ->
  importBlacklist_loop this blarr bl w =
  (Returned (bl ++ fresh_tokens bl (filter tester (map JS.trim blarr))), w).
Proof.
  intros this tester blarr bl w Hh. revert bl.
  induction blarr as [|piece rest IH]; intros bl; simpl.
  - now rewrite app_nil_r.
  - rewrite Hh. destruct (tester (JS.trim piece)) eqn:T; simpl.
    + destruct (JS.includes (JS.trim piece) bl) eqn:I; simpl.
      * apply IH.
      * rewrite IH, <- app_assoc. simpl. do 4 f_equal.
        apply fresh_tokens_ext. intros y. rewrite in_app_iff. simpl. tauto.
    + destruct (JS.includes (JS.trim piece) bl); apply IH.
Qed.

(** Whatever [this.hash] is, the local array stays free of duplicates. *)
Lemma importBlacklist_loop_NoDup : forall this blarr bl w bl',
  NoDup bl ->
  fst (importBlacklist_loop this blarr bl w) = Returned bl' ->
  NoDup bl'.
Proof.
  intros this blarr. induction blarr as [|piece rest IH]; intros bl w bl' Hn; simpl.
  - intros [= <-]. exact Hn.
  - destruct (JS.includes (JS.trim piece) bl) eqn:I; simpl; [now apply IH|].
    destruct (hash this) as [tester|]; [|discriminate].
    destruct (tester (JS.trim piece)); [|now apply IH].
    apply IH. apply NoDup_snoc; [exact Hn | now apply includes_not_In].
Qed.

Lemma importBlacklist_run : forall this list w,
  importBlacklist this list w =
  if JS.truthy list then
    match importBlacklist_loop this (JS.split_comma list)
                               (patterns (storage w)) (load w) with
    | (Returned bl', _) =>
        (Returned VUndefined,
         emit (SendMessage "blacklistUpdated") (persist bl' (load w)))
    | (Thrown e, _) => (Thrown e, load w)
    end
  else (Returned VUndefined, w).
Proof.
  intros this list w. unfold importBlacklist.
  destruct (JS.truthy list); [|reflexivity]. run_load.
  pose proof (importBlacklist_loop_world this (JS.split_comma list)
                (patterns (storage w)) (load w)) as Hw.
  destruct (importBlacklist_loop this (JS.split_comma list)
              (patterns (storage w)) (load w)) as [[bl'|e] w'];
    simpl in Hw; subst w'; reflexivity.
Qed.

Lemma importBlacklist_loop_present : forall this blarr bl w,
  (forall piece, In piece blarr -> In (JS.trim piece) bl) ->
  importBlacklist_loop this blarr bl w = (Returned bl, w).
Proof.
  intros this blarr bl w. induction blarr as [|piece rest IH]; intros H; simpl.
  - reflexivity.
  - assert (I : JS.includes (JS.trim piece) bl = true)
      by (apply includes_In, H; now left).
    rewrite I. simpl. apply IH. intros p Hp. apply H. now right.
Qed.

Lemma unblock_present : forall regex pre post w,
  blacklist (storage w) = Some (pre ++ regex :: post) ->
  ~ In regex pre ->
  unblock regex w =
  (Returned VUndefined,
   emit (SendMessage "blacklistUpdated") (persist (pre ++ post) w)).
Proof.
  intros regex pre post w Hb Hn. rewrite unblock_run.
  rewrite (load_present w _ Hb), (patterns_present _ _ Hb).
  assert (I : JS.includes regex (pre ++ regex :: post) = true).
  { apply includes_In. rewrite in_app_iff. right. now left. }
  rewrite I, (indexOf_first regex pre post Hn), splice1_at. reflexivity.
Qed.

(** ** The store operations *)

(** C2 (as amended).  When the storage area holds no pattern list, the
    first [getBlacklist] writes the empty list under the key [blacklist]
    and nothing else -- the mode is not written and keeps reading as it
    did, [undefined] on a fresh area -- and returns the empty list; the
    next [getBlacklist] returns the same list and writes nothing. *)
Theorem getBlacklist_first_access : forall w,
  blacklist (storage w) = None ->
  getBlacklist w = (Returned (Some []), persist [] w) /\
  trace (persist [] w) = trace w ++ [StorageSetBlacklist []] /\
  listMode (storage (persist [] w)) = listMode (storage w) /\
  getBlacklist (persist [] w) = (Returned (Some []), persist [] w).
Proof.
  intros w H. repeat split.
  rewrite getBlacklist_run. unfold load, patterns. now rewrite H.
Qed.

Lemma getBlacklist_first_access_witness :
  getBlacklist (fresh empty_storage) =
  (Returned (Some []),
   mkWorld (mkStorage (Some []) None None) [StorageSetBlacklist []]).
Proof.
  exact (proj1 (getBlacklist_first_access (fresh empty_storage) eq_refl)).
Defined.

(** C2 fails as stated: after the first load on an empty storage area
    the mode is still absent, not ["blacklist"], and the value returned
    is the pattern list alone. *)
Lemma getBlacklist_leaves_mode_absent :
  listMode (storage (snd (getBlacklist (fresh empty_storage)))) = None /\
  fst (getBlacklist (fresh empty_storage)) = Returned (Some []) /\
  trace (snd (getBlacklist (fresh empty_storage))) = [StorageSetBlacklist []].
Proof. repeat split. Qed.

(** C5 (as amended).  [block] takes the string as it is given, without
    trimming it and without rejecting the empty string.  If that exact
    string is already stored, nothing is written and the world is
    unchanged; otherwise the string is appended after the stored
    patterns, the list is written once and the update is broadcast.
    Either way the method returns [undefined]. *)
Theorem block_appends_as_given : forall regex w,
  (In regex (patterns (storage w)) ->
   block regex w = (Returned VUndefined, w)) /\
  (~ In regex (patterns (storage w)) ->
   block regex w =
   (Returned VUndefined,
    emit (SendMessage "blacklistUpdated")
         (persist (patterns (storage w) ++ [regex]) (load w)))).
Proof.
  intros regex w. rewrite block_run. split; intros H.
  - rewrite (in_patterns_present w regex H).
    apply includes_In in H. now rewrite H.
  - apply includes_not_In in H. now rewrite H.
Qed.

Lemma block_appends_as_given_witness :
  block "a" (fresh (mkStorage (Some ["a"; "b"]) None None)) =
  (Returned VUndefined, fresh (mkStorage (Some ["a"; "b"]) None None)) /\
  block "c" (fresh (mkStorage (Some ["a"; "b"]) None None)) =
  (Returned VUndefined,
   mkWorld (mkStorage (Some ["a"; "b"; "c"]) None None)
           [StorageSetBlacklist ["a"; "b"; "c"]; SendMessage "blacklistUpdated"]).
Proof.
  split.
  - apply (proj1 (block_appends_as_given "a"
                    (fresh (mkStorage (Some ["a"; "b"]) None None)))).
    simpl. now left.
  - apply (proj2 (block_appends_as_given "c"
                    (fresh (mkStorage (Some ["a"; "b"]) None None)))).
    simpl. intros [H|[H|[]]]; discriminate.
Defined.

(** C5 fails as stated: [" a "] is stored untrimmed although its trimmed
    form ["a"] is already present, the empty string is stored, and the
    value returned is [undefined], not a boolean. *)
Lemma block_does_not_trim :
  JS.trim " a " = "a" /\
  block " a " (fresh (mkStorage (Some ["a"]) None None)) =
  (Returned VUndefined,
   mkWorld (mkStorage (Some ["a"; " a "]) None None)
           [StorageSetBlacklist ["a"; " a "]; SendMessage "blacklistUpdated"]) /\
  block "" (fresh (mkStorage (Some ["a"]) None None)) =
  (Returned VUndefined,
   mkWorld (mkStorage (Some ["a"; ""]) None None)
           [StorageSetBlacklist ["a"; ""]; SendMessage "blacklistUpdated"]).
Proof. repeat split. Qed.

(** C8 (as amended).  If the string is stored, [unblock] cuts out exactly
    its first occurrence, writes the list once and broadcasts the update;
    if it is not stored, the pattern list is left as it is and nothing is
    written beyond the first-access initialisation of an absent list.
    Either way the method returns [undefined]. *)
Theorem unblock_first_occurrence : forall regex w,
  (forall pre post,
     blacklist (storage w) = Some (pre ++ regex :: post) ->
     ~ In regex pre ->
     unblock regex w =
     (Returned VUndefined,
      emit (SendMessage "blacklistUpdated") (persist (pre ++ post) w))) /\
  (~ In regex (patterns (storage w)) ->
   unblock regex w = (Returned VUndefined, load w)) /\
  (forall l, blacklist (storage w) = Some l -> ~ In regex l ->
   unblock regex w = (Returned VUndefined, w)).
Proof.
  intros regex w. split; [|split].
  - intros pre post Hb Hn. now apply unblock_present.
  - intros H. rewrite unblock_run. apply includes_not_In in H. now rewrite H.
  - intros l Hb H. rewrite unblock_run, (patterns_present _ _ Hb).
    apply includes_not_In in H. now rewrite H, (load_present w _ Hb).
Qed.

Lemma unblock_first_occurrence_witness :
  unblock "a" (fresh (mkStorage (Some ["b"; "a"; "c"; "a"]) None None)) =
  (Returned VUndefined,
   mkWorld (mkStorage (Some ["b"; "c"; "a"]) None None)
           [StorageSetBlacklist ["b"; "c"; "a"]; SendMessage "blacklistUpdated"]) /\
  unblock "z" (fresh (mkStorage (Some ["b"; "a"]) None None)) =
  (Returned VUndefined, fresh (mkStorage (Some ["b"; "a"]) None None)).
Proof.
  split.
  - apply (proj1 (unblock_first_occurrence "a"
             (fresh (mkStorage (Some ["b"; "a"; "c"; "a"]) None None)))
             ["b"] ["c"; "a"]).
    + reflexivity.
    + simpl. intros [H|[]]; discriminate.
  - apply (proj2 (proj2 (unblock_first_occurrence "z"
             (fresh (mkStorage (Some ["b"; "a"]) None None))))
             ["b"; "a"]).
    + reflexivity.
    + simpl. intros [H|[H|[]]]; discriminate.
Defined.

(** C8 fails as stated: removing a stored pattern returns [undefined],
    not [true], and removing an absent one returns [undefined], not
    [false] -- and on a fresh storage area it writes the empty list. *)
Lemma unblock_returns_undefined :
  unblock "a" (fresh (mkStorage (Some ["a"]) None None)) =
  (Returned VUndefined,
   mkWorld (mkStorage (Some []) None None)
           [StorageSetBlacklist []; SendMessage "blacklistUpdated"]) /\
  unblock "a" (fresh empty_storage) =
  (Returned VUndefined,
   mkWorld (mkStorage (Some []) None None) [StorageSetBlacklist []]).
Proof. repeat split. Qed.

(** C1 (as amended).  For a non-empty raw list, [importBlacklist] splits
    it on commas and trims each piece.  With a tester in [this.hash], it
    appends, in the order of the list, each trimmed piece that the tester
    accepts and that is neither stored already nor an earlier piece
    (exact comparison); the list is written once for the whole batch,
    also when nothing was added, and the update is broadcast.  Whatever
    [this.hash] is: if every trimmed piece is already stored the list is
    written back unchanged; an empty raw list does nothing at all; and
    the method never returns anything but [undefined] -- no count. *)
Theorem importBlacklist_batch : forall this list w,
  (forall tester,
     hash this = Some tester ->
     JS.truthy list = true ->
     importBlacklist this list w =
     (Returned VUndefined,
      emit (SendMessage "blacklistUpdated")
        (persist
           (patterns (storage w)
              ++ fresh_tokens (patterns (storage w))
                   (filter tester (map JS.trim (JS.split_comma list))))
           (load w)))) /\
  (JS.truthy list = true ->
   (forall piece, In piece (JS.split_comma list) ->
                  In (JS.trim piece) (patterns (storage w))) ->
   importBlacklist this list w =
   (Returned VUndefined,
    emit (SendMessage "blacklistUpdated")
         (persist (patterns (storage w)) (load w)))) /\
  (JS.truthy list = false ->
   importBlacklist this list w = (Returned VUndefined, w)) /\
  (forall v, fst (importBlacklist this list w) = Returned v -> v = VUndefined).
Proof.
  intros this list w. rewrite importBlacklist_run. repeat split.
  - intros tester Hh Ht. rewrite Ht.
    now rewrite (importBlacklist_loop_tested this tester _ _ _ Hh).
  - intros Ht Hall. rewrite Ht.
    now rewrite (importBlacklist_loop_present this _ _ _ Hall).
  - intros Ht. now rewrite Ht.
  - intros v. destruct (JS.truthy list).
    + destruct (importBlacklist_loop this (JS.split_comma list)
                  (patterns (storage w)) (load w)) as [[bl'|e] w'];
        simpl; congruence.
    + simpl. congruence.
Qed.

Lemma importBlacklist_batch_witness :
  importBlacklist (mkHistoryBlock (Some JS.truthy)) "a,b,a, c,"
                  (fresh (mkStorage (Some ["b"]) None None)) =
  (Returned VUndefined,
   mkWorld (mkStorage (Some ["b"; "a"; "c"]) None None)
           [StorageSetBlacklist ["b"; "a"; "c"]; SendMessage "blacklistUpdated"]).
Proof.
  exact (proj1 (importBlacklist_batch (mkHistoryBlock (Some JS.truthy))
                  "a,b,a, c," (fresh (mkStorage (Some ["b"]) None None)))
               JS.truthy eq_refl eq_refl).
Defined.

(** C1 fails as stated: on the object the script creates, importing
    ["a,b,a, c"] into an empty store throws a [TypeError] at the first
    piece and leaves the empty list behind; and even with a tester that
    accepts every non-empty piece the patterns become [a, b, c] but the
    value returned is [undefined], not 3. *)
Lemma importBlacklist_returns_no_count :
  importBlacklist new_HistoryBlock "a,b,a, c" (fresh empty_storage) =
  (Thrown TypeError,
   mkWorld (mkStorage (Some []) None None) [StorageSetBlacklist []]) /\
  importBlacklist (mkHistoryBlock (Some JS.truthy)) "a,b,a, c"
                  (fresh empty_storage) =
  (Returned VUndefined,
   mkWorld (mkStorage (Some ["a"; "b"; "c"]) None None)
           [StorageSetBlacklist []; StorageSetBlacklist ["a"; "b"; "c"];
            SendMessage "blacklistUpdated"]).
Proof. split; reflexivity. Qed.

(** On the object the script creates, an import throws as soon as it
    meets a piece that is not stored yet. *)
Lemma importBlacklist_loop_no_tester : forall this piece rest bl w,
  hash this = None ->
  ~ In (JS.trim piece) bl ->
  importBlacklist_loop this (piece :: rest) bl w = (Thrown TypeError, w).
Proof.
  intros this piece rest bl w Hh Hn. simpl.
  apply includes_not_In in Hn. now rewrite Hn, Hh.
Qed.

(** C6 (as amended).  [changeListMode] checks nothing about its
    argument beyond its truthiness.  A non-empty string, recognised or
    not, is written as the new mode; an empty or missing argument makes
    it write back the mode it reads from the storage area, so the stored
    state stays as it was.  The pattern list is untouched in both cases
    and there is exactly one write.  The two recognised values are
    checked by the caller: [Options.changeListMode] leaves the world as
    it is for any other value. *)
Theorem changeListMode_unvalidated : forall m w,
  (falsy m = false ->
   changeListMode m w = (Returned VUndefined, persist_mode m w)) /\
  (falsy m = true ->
   changeListMode m w =
   (Returned VUndefined, persist_mode (listMode (storage w)) w) /\
   storage (persist_mode (listMode (storage w)) w) = storage w) /\
  blacklist (storage (snd (changeListMode m w))) = blacklist (storage w) /\
  trace (snd (changeListMode m w)) =
  trace w ++ [StorageSetListMode (if falsy m then listMode (storage w) else m)] /\
  (forall s, s <> "whitelist" -> s <> "blacklist" ->
   Options_changeListMode s w = (Returned VUndefined, w)).
Proof.
  intros m w. rewrite changeListMode_run.
  split; [|split; [|split; [|split]]].
  - intros H. now rewrite H.
  - intros H. rewrite H. split; [reflexivity|].
    destruct w as [[b lm g] tr]. reflexivity.
  - reflexivity.
  - reflexivity.
  - intros s Hw Hb. unfold Options_changeListMode.
    apply String.eqb_neq in Hw, Hb. now rewrite Hw, Hb.
Qed.

Lemma changeListMode_unvalidated_witness :
  changeListMode (Some "whitelist")
                 (fresh (mkStorage (Some ["a"]) (Some "blacklist") None)) =
  (Returned VUndefined,
   mkWorld (mkStorage (Some ["a"]) (Some "whitelist") None)
           [StorageSetListMode (Some "whitelist")]) /\
  changeListMode None
                 (fresh (mkStorage (Some ["a"]) (Some "blacklist") None)) =
  (Returned VUndefined,
   mkWorld (mkStorage (Some ["a"]) (Some "blacklist") None)
           [StorageSetListMode (Some "blacklist")]).
Proof.
  split.
  - exact (proj1 (changeListMode_unvalidated (Some "whitelist")
             (fresh (mkStorage (Some ["a"]) (Some "blacklist") None)))
             eq_refl).
  - exact (proj1 (proj1 (proj2 (changeListMode_unvalidated None
             (fresh (mkStorage (Some ["a"]) (Some "blacklist") None))))
             eq_refl)).
Defined.

(** C6 fails as stated: the unrecognised value ["foo"] is written as
    the mode. *)
Lemma changeListMode_stores_foo :
  changeListMode (Some "foo")
                 (fresh (mkStorage (Some ["a"]) (Some "blacklist") None)) =
  (Returned VUndefined,
   mkWorld (mkStorage (Some ["a"]) (Some "foo") None)
           [StorageSetListMode (Some "foo")]).
Proof. reflexivity. Qed.

(** The two recognised values are checked by the options page before it
    sends the message: for any other value the page's handler leaves the
    world as it is. *)
Lemma Options_changeListMode_validates : forall m w,
  m <> "whitelist" -> m <> "blacklist" ->
  Options_changeListMode m w = (Returned VUndefined, w).
Proof.
  intros m w Hw Hb. unfold Options_changeListMode.
  apply String.eqb_neq in Hw, Hb. now rewrite Hw, Hb.
Qed.

Lemma Options_changeListMode_recognised : forall m w,
  m = "whitelist" \/ m = "blacklist" ->
  Options_changeListMode m w = (Returned VUndefined, persist_mode (Some m) w).
Proof.
  intros m w [-> | ->]; reflexivity.
Qed.

(** C10.  Each store operation keeps a duplicate-free pattern sequence
    duplicate-free: [block] (add), [unblock] (remove), [importBlacklist]
    (importMany, whatever [this.hash] is and whether or not it throws),
    [clearBlacklist] (clear) and [changeListMode] (setMode). *)
Theorem patterns_NoDup_preserved : forall this regex list m w,
  NoDup (patterns (storage w)) ->
  NoDup (patterns (storage (snd (block regex w)))) /\
  NoDup (patterns (storage (snd (unblock regex w)))) /\
  NoDup (patterns (storage (snd (importBlacklist this list w)))) /\
  NoDup (patterns (storage (snd (clearBlacklist w)))) /\
  NoDup (patterns (storage (snd (changeListMode m w)))).
Proof.
  intros this regex list m w Hn. repeat split.
  - rewrite block_run.
    destruct (JS.includes regex (patterns (storage w))) eqn:I; simpl.
    + now rewrite load_patterns.
    + unfold patterns at 1. simpl.
      apply NoDup_snoc; [exact Hn | now apply includes_not_In].
  - rewrite unblock_run.
    destruct (JS.includes regex (patterns (storage w))) eqn:I; simpl.
    + unfold patterns at 1. simpl.
      apply includes_In, in_first_split in I.
      destruct I as [pre [post [E Hpre]]]. rewrite E in *.
      rewrite (indexOf_first regex pre post Hpre), splice1_at.
      now apply NoDup_drop_middle in Hn.
    + now rewrite load_patterns.
  - rewrite importBlacklist_run. destruct (JS.truthy list); [|exact Hn].
    pose proof (importBlacklist_loop_NoDup this (JS.split_comma list)
                  (patterns (storage w)) (load w)) as HL.
    destruct (importBlacklist_loop this (JS.split_comma list)
                (patterns (storage w)) (load w)) as [[bl'|e] w']; simpl.
    + unfold patterns at 1. simpl. now apply HL.
    + now rewrite load_patterns.
  - rewrite clearBlacklist_run. simpl. constructor.
  - rewrite changeListMode_run. simpl. exact Hn.
Qed.

Lemma patterns_NoDup_preserved_witness :
  NoDup (patterns (storage (snd (block "c"
          (fresh (mkStorage (Some ["a"; "b"]) None None)))))) /\
  NoDup (patterns (storage (snd (unblock "c"
          (fresh (mkStorage (Some ["a"; "b"]) None None)))))) /\
  NoDup (patterns (storage (snd (importBlacklist new_HistoryBlock "b,c"
          (fresh (mkStorage (Some ["a"; "b"]) None None)))))) /\
  NoDup (patterns (storage (snd (clearBlacklist
          (fresh (mkStorage (Some ["a"; "b"]) None None)))))) /\
  NoDup (patterns (storage (snd (changeListMode (Some "whitelist")
          (fresh (mkStorage (Some ["a"; "b"]) None None)))))).
Proof.
  apply (patterns_NoDup_preserved new_HistoryBlock "c" "b,c" (Some "whitelist")
           (fresh (mkStorage (Some ["a"; "b"]) None None))).
  simpl. constructor.
  - simpl. intros [H|[]]. discriminate.
  - constructor; [intros [] | constructor].
Defined.

(** ** The visit filter *)

Lemma emit_changes : forall e w, emit e w <> w.
Proof.
  intros e [st tr] H. unfold emit in H. simpl in H.
  injection H as H. apply (f_equal (@length Event)) in H.
  rewrite length_app in H. simpl in H. lia.
Qed.

Section VisitFilterProperties.

Variable RegExp : string -> option (string -> bool).

Lemma rejects_valid : forall p url, rejects RegExp p url -> valid RegExp p.
Proof. intros p url [t [E _]]. unfold valid. congruence. Qed.

Lemma rejects_not_matches : forall p url,
  rejects RegExp p url -> ~ matches RegExp p url.
Proof. intros p url [t [E F]] [t' [E' T]]. congruence. Qed.

Lemma valid_not_matches_rejects : forall p url,
  valid RegExp p -> ~ matches RegExp p url -> rejects RegExp p url.
Proof.
  intros p url V N. unfold valid in V.
  destruct (RegExp p) as [t|] eqn:E; [|congruence].
  exists t. split; [exact E|].
  destruct (t url) eqn:T; [|reflexivity].
  exfalso. apply N. now exists t.
Qed.

(** The scan reads the patterns and nothing else. *)
Lemma scan_world : forall url bl w, snd (scan RegExp url bl w) = w.
Proof.
  intros url bl w. induction bl as [|p rest IH]; simpl; [reflexivity|].
  destruct (RegExp p) as [t|]; [|reflexivity].
  destruct (t url); [reflexivity | exact IH].
Qed.

Lemma scan_found : forall url pre p post w,
  Forall (valid RegExp) pre ->
  matches RegExp p url ->
  scan RegExp url (pre ++ p :: post) w = (Returned true, w).
Proof.
  intros url pre p post w Hv [t [E T]].
  induction Hv as [|q pre Hq Hv IH]; simpl.
  - now rewrite E, T.
  - unfold valid in Hq. destruct (RegExp q) as [tq|]; [|congruence].
    destruct (tq url); [reflexivity | exact IH].
Qed.

Lemma scan_not_found : forall url bl w,
  Forall (fun q => rejects RegExp q url) bl ->
  scan RegExp url bl w = (Returned false, w).
Proof.
  intros url bl w H. induction H as [|q bl [t [E F]] H IH]; simpl.
  - reflexivity.
  - now rewrite E, F.
Qed.

Lemma scan_throws : forall url pre p post w,
  Forall (fun q => rejects RegExp q url) pre ->
  RegExp p = None ->
  scan RegExp url (pre ++ p :: post) w = (Thrown SyntaxError, w).
Proof.
  intros url pre p post w H E.
  induction H as [|q pre [t [Eq F]] H IH]; simpl.
  - now rewrite E.
  - now rewrite Eq, F.
Qed.

(** Conversely, each result of the scan tells how the list is made. *)
Lemma scan_cases : forall url bl w,
  (scan RegExp url bl w = (Returned true, w) /\
   exists pre p post, bl = pre ++ p :: post /\
     Forall (fun q => rejects RegExp q url) pre /\ matches RegExp p url) \/
  (scan RegExp url bl w = (Returned false, w) /\
   Forall (fun q => rejects RegExp q url) bl) \/
  (scan RegExp url bl w = (Thrown SyntaxError, w) /\
   exists pre p post, bl = pre ++ p :: post /\
     Forall (fun q => rejects RegExp q url) pre /\ RegExp p = None).
Proof.
  intros url bl w. induction bl as [|q bl IH]; simpl.
  - right. left. split; [reflexivity | constructor].
  - destruct (RegExp q) as [t|] eqn:E.
    + destruct (t url) eqn:T.
      * left. split; [reflexivity|].
        exists [], q, bl. repeat split; [constructor|]. now exists t.
      * assert (R : rejects RegExp q url) by now exists t.
        destruct IH as [[S [pre [p [post [-> [Hp Hm]]]]]]
                       |[[S Hall]
                       |[S [pre [p [post [-> [Hp Hn]]]]]]]].
        -- left. split; [exact S|].
           exists (q :: pre), p, post. repeat split; [now constructor | exact Hm].
        -- right. left. split; [exact S | now constructor].
        -- right. right. split; [exact S|].
           exists (q :: pre), p, post. repeat split; [now constructor | exact Hn].
    + right. right. split; [reflexivity|].
      exists [], q, bl. repeat split; [constructor | exact E].
Qed.

Lemma onPageVisited_run : forall url w,
  onPageVisited RegExp url w =
  match fst (scan RegExp url (patterns (storage w)) (load w)) with
  | Returned found =>
      if (isBlacklist (storage w) && found)
         || (negb (isBlacklist (storage w)) && negb found)
      then (Returned VUndefined, emit (HistoryDeleteUrl url) (load w))
      else (Returned VUndefined, load w)
  | Thrown e => (Thrown e, load w)
  end.
Proof.
  intros url w. unfold onPageVisited. run_load.
  unfold storage_get, isBlacklist. cbn [fst snd]. rewrite load_listMode.
  pose proof (scan_world url (patterns (storage w)) (load w)) as Hw.
  destruct (scan RegExp url (patterns (storage w)) (load w)) as [[found|e] w'];
    simpl in Hw; subst w'; cbn [fst]; [|reflexivity].
  destruct ((match listMode (storage w) with
             | Some m => String.eqb m "blacklist"
             | None => false
             end && found)
            || (negb match listMode (storage w) with
                     | Some m => String.eqb m "blacklist"
                     | None => false
                     end && negb found)); reflexivity.
Qed.

(** What the visit does once the result of the scan is known. *)
Lemma onPageVisited_found : forall url w pre p post,
  patterns (storage w) = pre ++ p :: post ->
  Forall (valid RegExp) pre ->
  matches RegExp p url ->
  if isBlacklist (storage w) then purged RegExp url w
  else retained RegExp url w.
Proof.
  intros url w pre p post E Hv Hm. unfold purged, retained.
  rewrite !onPageVisited_run, E, (scan_found url pre p post _ Hv Hm).
  cbn [fst]. destruct (isBlacklist (storage w)); reflexivity.
Qed.

Lemma onPageVisited_not_found : forall url w,
  Forall (fun q => rejects RegExp q url) (patterns (storage w)) ->
  if isBlacklist (storage w) then retained RegExp url w
  else purged RegExp url w.
Proof.
  intros url w H. unfold purged, retained.
  rewrite !onPageVisited_run, (scan_not_found url _ _ H).
  cbn [fst]. destruct (isBlacklist (storage w)); reflexivity.
Qed.

Lemma onPageVisited_throws : forall url w pre p post,
  patterns (storage w) = pre ++ p :: post ->
  Forall (fun q => rejects RegExp q url) pre ->
  RegExp p = None ->
  aborted RegExp url w.
Proof.
  intros url w pre p post E H N. unfold aborted.
  now rewrite onPageVisited_run, E, (scan_throws url pre p post _ H N).
Qed.

(** The three ways exclude one another, and one of them happens. *)
Lemma purged_inv : forall url w,
  purged RegExp url w ->
  (isBlacklist (storage w) = true /\
   exists pre p post, patterns (storage w) = pre ++ p :: post /\
     Forall (fun q => rejects RegExp q url) pre /\ matches RegExp p url) \/
  (isBlacklist (storage w) = false /\
   Forall (fun q => rejects RegExp q url) (patterns (storage w))).
Proof.
  intros url w. unfold purged. rewrite onPageVisited_run.
  destruct (scan_cases url (patterns (storage w)) (load w))
    as [[S D]|[[S D]|[S D]]]; rewrite S; cbn [fst].
  - destruct (isBlacklist (storage w)); simpl.
    + intros _. left. split; [reflexivity | exact D].
    + intros [= H]. symmetry in H. now apply emit_changes in H.
  - destruct (isBlacklist (storage w)); simpl.
    + intros [= H]. symmetry in H. now apply emit_changes in H.
    + intros _. right. split; [reflexivity | exact D].
  - discriminate.
Qed.

End VisitFilterProperties.

Section VisitFilterClaims.

Variable RegExp : string -> option (string -> bool).

(** The result of the scan does not depend on the world it runs in. *)
Lemma scan_fst_world : forall url bl w w',
  fst (scan RegExp url bl w) = fst (scan RegExp url bl w').
Proof.
  intros url bl w w'. induction bl as [|p rest IH]; simpl; [reflexivity|].
  destruct (RegExp p) as [t|]; [|reflexivity].
  destruct (t url); [reflexivity | exact IH].
Qed.

Lemma with_listMode_patterns : forall m w,
  patterns (storage (with_listMode m w)) = patterns (storage w).
Proof. reflexivity. Qed.

Lemma with_listMode_load_trace : forall m w,
  trace (load (with_listMode m w)) = trace (load w).
Proof.
  intros m [[b lm g] tr]. unfold with_listMode, load. simpl.
  destruct b; reflexivity.
Qed.

(** C4 (as amended).  With the mode set to ["blacklist"], the visited
    address is purged exactly when some stored pattern matches it and
    every pattern stored before that one is a valid regular expression;
    with the mode set to ["whitelist"], exactly when every stored
    pattern is valid and none matches it.  With no pattern stored,
    blacklist mode keeps every address and whitelist mode purges every
    address. *)
Theorem onPageVisited_polarity : forall url w,
  (listMode (storage w) = Some "blacklist" ->
   (purged RegExp url w <->
    exists pre p post,
      patterns (storage w) = pre ++ p :: post /\
      Forall (valid RegExp) pre /\ matches RegExp p url)) /\
  (listMode (storage w) = Some "whitelist" ->
   (purged RegExp url w <->
    Forall (valid RegExp) (patterns (storage w)) /\
    forall p, In p (patterns (storage w)) -> ~ matches RegExp p url)) /\
  (patterns (storage w) = [] ->
   listMode (storage w) = Some "blacklist" -> retained RegExp url w) /\
  (patterns (storage w) = [] ->
   listMode (storage w) = Some "whitelist" -> purged RegExp url w).
Proof.
  intros url w. split; [|split; [|split]].
  - intros Hm.
    assert (B : isBlacklist (storage w) = true)
      by (unfold isBlacklist; now rewrite Hm).
    split.
    + intros Hp. apply purged_inv in Hp.
      destruct Hp as [[_ [pre [p [post [E [Hr M]]]]]] | [Hf _]]; [|congruence].
      exists pre, p, post. repeat split; try assumption.
      eapply Forall_impl; [|exact Hr]. intros q. apply rejects_valid.
    + intros [pre [p [post [E [Hv M]]]]].
      pose proof (onPageVisited_found RegExp url w pre p post E Hv M) as H.
      now rewrite B in H.
  - intros Hm.
    assert (B : isBlacklist (storage w) = false)
      by (unfold isBlacklist; now rewrite Hm).
    split.
    + intros Hp. apply purged_inv in Hp.
      destruct Hp as [[Ht _] | [_ Hr]]; [congruence|]. split.
      * eapply Forall_impl; [|exact Hr]. intros q. apply rejects_valid.
      * intros p Hin. rewrite Forall_forall in Hr.
        apply rejects_not_matches. now apply Hr.
    + intros [Hv Hn].
      assert (Hr : Forall (fun q => rejects RegExp q url) (patterns (storage w))).
      { rewrite Forall_forall in *. intros q Hq.
        apply valid_not_matches_rejects; [now apply Hv | now apply Hn]. }
      pose proof (onPageVisited_not_found RegExp url w Hr) as H.
      now rewrite B in H.
  - intros E Hm.
    assert (Hr : Forall (fun q => rejects RegExp q url) (patterns (storage w)))
      by (rewrite E; constructor).
    pose proof (onPageVisited_not_found RegExp url w Hr) as H.
    unfold isBlacklist in H. now rewrite Hm in H.
  - intros E Hm.
    assert (Hr : Forall (fun q => rejects RegExp q url) (patterns (storage w)))
      by (rewrite E; constructor).
    pose proof (onPageVisited_not_found RegExp url w Hr) as H.
    unfold isBlacklist in H. now rewrite Hm in H.
Qed.

(** C3 (as amended).  When the storage area holds no [listMode], the
    visit goes as in whitelist mode -- same outcome and same effects as
    with ["whitelist"] stored: the address is purged exactly when every
    stored pattern is a valid regular expression and none matches it.
    So with no pattern stored every visited address is purged. *)
Theorem onPageVisited_absent_mode : forall url w,
  listMode (storage w) = None ->
  (purged RegExp url w <->
   Forall (valid RegExp) (patterns (storage w)) /\
   forall p, In p (patterns (storage w)) -> ~ matches RegExp p url) /\
  (patterns (storage w) = [] -> purged RegExp url w) /\
  fst (onPageVisited RegExp url w) =
    fst (onPageVisited RegExp url (with_listMode (Some "whitelist") w)) /\
  trace (snd (onPageVisited RegExp url w)) =
    trace (snd (onPageVisited RegExp url (with_listMode (Some "whitelist") w))).
Proof.
  intros url w Hm.
  assert (B : isBlacklist (storage w) = false)
    by (unfold isBlacklist; now rewrite Hm).
  assert (Hnf : Forall (fun q => rejects RegExp q url) (patterns (storage w)) ->
                purged RegExp url w).
  { intros Hr. pose proof (onPageVisited_not_found RegExp url w Hr) as H.
    now rewrite B in H. }
  split; [|split].
  - split.
    + intros Hp. apply purged_inv in Hp.
      destruct Hp as [[Ht _] | [_ Hr]]; [congruence|]. split.
      * eapply Forall_impl; [|exact Hr]. intros q. apply rejects_valid.
      * intros p Hin. rewrite Forall_forall in Hr.
        apply rejects_not_matches. now apply Hr.
    + intros [Hv Hn]. apply Hnf.
      rewrite Forall_forall in *. intros q Hq.
      apply valid_not_matches_rejects; [now apply Hv | now apply Hn].
  - intros E. apply Hnf. rewrite E. constructor.
  - rewrite !onPageVisited_run, with_listMode_patterns.
    rewrite (scan_fst_world url _ (load (with_listMode (Some "whitelist") w))
               (load w)).
    rewrite B. change (isBlacklist (storage (with_listMode (Some "whitelist") w)))
      with false.
    destruct (fst (scan RegExp url (patterns (storage w)) (load w)))
      as [[|]|e]; simpl; rewrite ?with_listMode_load_trace; split; reflexivity.
Qed.

(** C7 (as amended).  A stored pattern that is not a valid regular
    expression is not skipped.  When no pattern before it matches the
    address, constructing it throws: the [SyntaxError] leaves the
    handler, the patterns after it are not tried, nothing is purged and
    no decision is made.  Only when a pattern stored before it already
    matches is the invalid one never constructed, and the decision is
    that of the match. *)
Theorem onPageVisited_invalid_pattern : forall url w pre p post,
  patterns (storage w) = pre ++ p :: post ->
  RegExp p = None ->
  (Forall (fun q => rejects RegExp q url) pre -> aborted RegExp url w) /\
  (forall pre1 q pre2,
     pre = pre1 ++ q :: pre2 ->
     Forall (valid RegExp) pre1 ->
     matches RegExp q url ->
     if isBlacklist (storage w) then purged RegExp url w
     else retained RegExp url w).
Proof.
  intros url w pre p post E N. split.
  - intros Hr. exact (onPageVisited_throws RegExp url w pre p post E Hr N).
  - intros pre1 q pre2 -> Hv M.
    apply (onPageVisited_found RegExp url w pre1 q (pre2 ++ p :: post));
      [|exact Hv | exact M].
    now rewrite E, <- app_assoc.
Qed.

(** The visit writes to the storage area only through the first-access
    initialisation of [getBlacklist]. *)
Lemma onPageVisited_storage : forall url w,
  storage (snd (onPageVisited RegExp url w)) = storage (load w).
Proof.
  intros url w. rewrite onPageVisited_run.
  destruct (fst (scan RegExp url (patterns (storage w)) (load w)))
    as [found|e]; [|reflexivity].
  destruct ((isBlacklist (storage w) && found)
            || (negb (isBlacklist (storage w)) && negb found)); reflexivity.
Qed.

(** C9 (as amended).  The visit decision writes nothing to the storage
    area beyond the first-access initialisation of the load it starts
    with.  Whatever the address, the patterns and the outcome of the
    visit, the storage area after [onPageVisited] is the one
    [getBlacklist] handed to it: the mode and the other keys are always
    as before; on a state that holds a pattern list every stored key is
    exactly as it was; on a state that holds none, the empty list is
    written under [blacklist] and nothing else changes. *)
Theorem onPageVisited_frame : forall url w,
  storage (snd (onPageVisited RegExp url w)) = storage (snd (getBlacklist w)) /\
  (forall ps,
     blacklist (storage w) = Some ps ->
     storage (snd (onPageVisited RegExp url w)) = storage w) /\
  (blacklist (storage w) = None ->
   storage (snd (onPageVisited RegExp url w)) =
   mkStorage (Some []) (listMode (storage w)) (matching (storage w))) /\
  listMode (storage (snd (onPageVisited RegExp url w))) = listMode (storage w) /\
  matching (storage (snd (onPageVisited RegExp url w))) = matching (storage w).
Proof.
  intros url w. rewrite onPageVisited_storage, getBlacklist_run.
  split; [reflexivity|]. split; [|split].
  - intros ps H. now rewrite (load_present w ps H).
  - intros H. unfold load. now rewrite H.
  - destruct w as [[b m g] tr]. unfold load. simpl.
    destruct b; split; reflexivity.
Qed.

End VisitFilterClaims.

(** ** The claims on concrete visits *)

Lemma onPageVisited_polarity_witness :
  purged Sample.RegExp "https://evil.com/x"
         (fresh (mkStorage (Some ["good"; "evil"]) (Some "blacklist") None)) /\
  purged Sample.RegExp "https://evil.com/x"
         (fresh (mkStorage (Some ["good"]) (Some "whitelist") None)).
Proof.
  split.
  - apply (proj1 (onPageVisited_polarity Sample.RegExp "https://evil.com/x"
             (fresh (mkStorage (Some ["good"; "evil"]) (Some "blacklist") None)))
             eq_refl).
    exists ["good"], "evil", []. repeat split.
    + constructor; [discriminate | constructor].
    + exists (Sample.contains "evil"). split; reflexivity.
  - apply (proj1 (proj2 (onPageVisited_polarity Sample.RegExp "https://evil.com/x"
             (fresh (mkStorage (Some ["good"]) (Some "whitelist") None))))
             eq_refl).
    split.
    + constructor; [discriminate | constructor].
    + intros p [<-|[]] [t [E T]]. injection E as <-. discriminate.
Defined.

(** C4 fails as stated: in blacklist mode the stored pattern ["a"]
    matches the address, but the invalid pattern stored before it makes
    the handler throw, and nothing is purged. *)
Lemma onPageVisited_blacklist_not_purged :
  Sample.RegExp "a" = Some (Sample.contains "a") /\
  Sample.contains "a" "http://a/" = true /\
  Sample.RegExp "(" = None /\
  onPageVisited Sample.RegExp "http://a/"
    (fresh (mkStorage (Some ["("; "a"]) (Some "blacklist") None)) =
  (Thrown SyntaxError,
   fresh (mkStorage (Some ["("; "a"]) (Some "blacklist") None)).
Proof. repeat split. Qed.

Lemma onPageVisited_absent_mode_witness :
  purged Sample.RegExp "http://a/" (fresh (mkStorage (Some ["b"]) None None)) /\
  purged Sample.RegExp "http://a/" (fresh empty_storage).
Proof.
  split.
  - apply (proj1 (onPageVisited_absent_mode Sample.RegExp "http://a/"
                    (fresh (mkStorage (Some ["b"]) None None)) eq_refl)).
    split.
    + constructor; [discriminate | constructor].
    + intros p [<-|[]] [t [E T]]. injection E as <-. discriminate.
  - apply (proj1 (proj2 (onPageVisited_absent_mode Sample.RegExp "http://a/"
                           (fresh empty_storage) eq_refl))).
    reflexivity.
Defined.

(** C3 fails as stated: with no mode stored and the single, invalid
    pattern ["("], no pattern matches the address, yet the address is
    not purged: the handler throws. *)
Lemma absent_mode_invalid_pattern_not_purged :
  Sample.RegExp "(" = None /\
  onPageVisited Sample.RegExp "http://a/"
    (fresh (mkStorage (Some ["("]) None None)) =
  (Thrown SyntaxError, fresh (mkStorage (Some ["("]) None None)).
Proof. split; reflexivity. Qed.

Lemma onPageVisited_invalid_pattern_witness :
  aborted Sample.RegExp "http://a/"
    (fresh (mkStorage (Some ["x"; "("; "a"]) (Some "whitelist") None)) /\
  retained Sample.RegExp "http://a/"
    (fresh (mkStorage (Some ["a"; "("]) (Some "whitelist") None)).
Proof.
  split.
  - apply (proj1 (onPageVisited_invalid_pattern Sample.RegExp "http://a/"
             (fresh (mkStorage (Some ["x"; "("; "a"]) (Some "whitelist") None))
             ["x"] "(" ["a"] eq_refl eq_refl)).
    constructor; [|constructor].
    exists (Sample.contains "x"). split; reflexivity.
  - apply (proj2 (onPageVisited_invalid_pattern Sample.RegExp "http://a/"
             (fresh (mkStorage (Some ["a"; "("]) (Some "whitelist") None))
             ["a"] "(" [] eq_refl eq_refl) [] "a" [] eq_refl).
    + constructor.
    + exists (Sample.contains "a"). split; reflexivity.
Defined.

(** C7 fails as stated: in whitelist mode with the patterns
    [x, (, a], the invalid pattern is not passed over to reach ["a"],
    which matches the address; the handler throws a [SyntaxError]
    instead of deciding. *)
Lemma invalid_pattern_is_not_skipped :
  Sample.RegExp "(" = None /\
  Sample.RegExp "a" = Some (Sample.contains "a") /\
  Sample.contains "a" "http://a/" = true /\
  onPageVisited Sample.RegExp "http://a/"
    (fresh (mkStorage (Some ["x"; "("; "a"]) (Some "whitelist") None)) =
  (Thrown SyntaxError,
   fresh (mkStorage (Some ["x"; "("; "a"]) (Some "whitelist") None)).
Proof. repeat split. Qed.

Lemma onPageVisited_frame_witness :
  storage (snd (onPageVisited Sample.RegExp "http://a/"
    (fresh (mkStorage (Some ["a"]) None (Some "regex"))))) =
  mkStorage (Some ["a"]) None (Some "regex") /\
  storage (snd (onPageVisited Sample.RegExp "http://a/"
    (fresh (mkStorage None (Some "whitelist") (Some "regex"))))) =
  mkStorage (Some []) (Some "whitelist") (Some "regex").
Proof.
  split.
  - exact (proj1 (proj2 (onPageVisited_frame Sample.RegExp "http://a/"
                    (fresh (mkStorage (Some ["a"]) None (Some "regex")))))
                 ["a"] eq_refl).
  - exact (proj1 (proj2 (proj2 (onPageVisited_frame Sample.RegExp "http://a/"
                    (fresh (mkStorage None (Some "whitelist") (Some "regex"))))))
                 eq_refl).
Defined.

(** C9 fails as stated: on a storage area with no pattern list -- a
    fresh one, or one where only a mode was stored -- the visit writes
    the empty list under [blacklist], so the stored state is not as it
    was before the call. *)
Lemma onPageVisited_initialises_blacklist :
  onPageVisited Sample.RegExp "http://a/" (fresh empty_storage) =
  (Returned VUndefined,
   mkWorld (mkStorage (Some []) None None)
           [StorageSetBlacklist []; HistoryDeleteUrl "http://a/"]) /\
  onPageVisited Sample.RegExp "http://a/"
                (fresh (mkStorage None (Some "blacklist") None)) =
  (Returned VUndefined,
   mkWorld (mkStorage (Some []) (Some "blacklist") None)
           [StorageSetBlacklist []]).
Proof. split; reflexivity. Qed.

(** * Further properties of the store, the listeners and the options page *)

(** ** What the store operations leave in the storage area *)

Lemma load_matching : forall w, matching (storage (load w)) = matching (storage w).
Proof.
  intros [[b m g] tr]. unfold load. simpl. destruct b; reflexivity.
Qed.

Lemma load_storage : forall w,
  storage (load w) =
  mkStorage (Some (patterns (storage w))) (listMode (storage w))
            (matching (storage w)).
Proof.
  intros [[b m g] tr]. unfold load, patterns. simpl. destruct b; reflexivity.
Qed.

Lemma load_idempotent : forall w, load (load w) = load w.
Proof.
  intros w. apply (load_present (load w) (patterns (storage w))).
  apply load_blacklist.
Qed.

Lemma remove_first_absent : forall x l, ~ In x l -> remove_first x l = l.
Proof.
  intros x l. induction l as [|y l IH]; intros H; simpl; [reflexivity|].
  destruct (String.eqb y x) eqn:E.
  - apply String.eqb_eq in E. subst. exfalso. apply H. now left.
  - f_equal. apply IH. intro K. apply H. now right.
Qed.

Lemma In_remove_first_other : forall x q l,
  q <> x -> (In q (remove_first x l) <-> In q l).
Proof.
  intros x q l Hq. induction l as [|y l IH]; simpl; [tauto|].
  destruct (String.eqb y x) eqn:E.
  - apply String.eqb_eq in E. subst. split; [now right|].
    intros [K|K]; [congruence | exact K].
  - simpl. rewrite IH. tauto.
Qed.

Lemma In_remove_first : forall x q l,
  In q (remove_first x l) -> In q l.
Proof.
  intros x q l. induction l as [|y l IH]; simpl; [tauto|].
  destruct (String.eqb y x); simpl; [now right|].
  intros [K|K]; [now left | right; now apply IH].
Qed.

Lemma NoDup_remove_first : forall x l,
  NoDup l -> NoDup (remove_first x l) /\ ~ In x (remove_first x l).
Proof.
  intros x l H. induction H as [|y l Hy H [IH1 IH2]]; simpl.
  - split; [constructor | intros []].
  - destruct (String.eqb y x) eqn:E.
    + apply String.eqb_eq in E. subst. now split.
    + apply String.eqb_neq in E. split.
      * constructor; [|exact IH1]. intro K. apply Hy.
        now apply In_remove_first in K.
      * intros [K|K]; [congruence | contradiction].
Qed.

Lemma block_storage : forall regex w,
  storage (snd (block regex w)) =
  mkStorage
    (Some (if JS.includes regex (patterns (storage w))
           then patterns (storage w)
           else patterns (storage w) ++ [regex]))
    (listMode (storage w)) (matching (storage w)).
Proof.
  intros regex w. rewrite block_run.
  destruct (JS.includes regex (patterns (storage w))); simpl.
  - apply load_storage.
  - now rewrite load_listMode, load_matching.
Qed.

Lemma unblock_storage : forall regex w,
  storage (snd (unblock regex w)) =
  mkStorage (Some (remove_first regex (patterns (storage w))))
            (listMode (storage w)) (matching (storage w)).
Proof.
  intros regex w. rewrite unblock_run.
  destruct (JS.includes regex (patterns (storage w))) eqn:I; simpl.
  - rewrite load_listMode, load_matching.
    apply includes_In, in_first_split in I.
    destruct I as [pre [post [E Hpre]]]. rewrite E.
    now rewrite (indexOf_first regex pre post Hpre), splice1_at,
      (remove_first_split regex pre post Hpre).
  - apply includes_not_In in I.
    now rewrite (remove_first_absent regex _ I), load_storage.
Qed.

Lemma block_returns : forall regex w, fst (block regex w) = Returned VUndefined.
Proof.
  intros regex w. rewrite block_run.
  destruct (JS.includes regex (patterns (storage w))); reflexivity.
Qed.

Lemma unblock_returns : forall regex w, fst (unblock regex w) = Returned VUndefined.
Proof.
  intros regex w. rewrite unblock_run.
  destruct (JS.includes regex (patterns (storage w))); reflexivity.
Qed.

(** ** Adding and removing *)

(** X1.  Adding the same string a second time does nothing at all: the
    second [block] writes nothing, broadcasts nothing and leaves the
    world of the first as it is. *)
Theorem block_twice : forall regex w,
  block regex (snd (block regex w)) = (Returned VUndefined, snd (block regex w)).
Proof.
  intros regex w.
  assert (Hin : In regex (patterns (storage (snd (block regex w))))).
  { unfold patterns at 1. rewrite block_storage. simpl.
    destruct (JS.includes regex (patterns (storage w))) eqn:I.
    - now apply includes_In.
    - rewrite in_app_iff. right. now left. }
  rewrite (block_run regex (snd (block regex w))).
  rewrite (in_patterns_present _ _ Hin).
  apply includes_In in Hin. now rewrite Hin.
Qed.

(** X2.  Adding a string that is not stored and removing it again gives
    back the storage area as [getBlacklist] sees it: the same patterns
    in the same order, the same mode. *)
Theorem block_then_unblock : forall regex w,
  ~ In regex (patterns (storage w)) ->
  storage (snd (unblock regex (snd (block regex w)))) = storage (load w).
Proof.
  intros regex w Hn. rewrite unblock_storage.
  unfold patterns at 1. rewrite !block_storage. simpl.
  assert (I : JS.includes regex (patterns (storage w)) = false)
    by now apply includes_not_In.
  rewrite I.
  rewrite (remove_first_split regex (patterns (storage w)) [] Hn), app_nil_r.
  symmetry. apply load_storage.
Qed.

Lemma block_then_unblock_witness :
  storage (snd (unblock "c" (snd (block "c"
     (fresh (mkStorage (Some ["a"; "b"]) (Some "whitelist") None)))))) =
  mkStorage (Some ["a"; "b"]) (Some "whitelist") None.
Proof.
  apply (block_then_unblock "c"
           (fresh (mkStorage (Some ["a"; "b"]) (Some "whitelist") None))).
  simpl. intros [H|[H|[]]]; discriminate.
Defined.

(** X3.  After [unblock] the stored patterns are the former ones without
    the first occurrence of the string: every other string is stored
    exactly when it was before, and on a duplicate-free list the string
    itself is gone.  The mode and the other keys are as before. *)
Theorem unblock_removes : forall regex w,
  patterns (storage (snd (unblock regex w))) =
    remove_first regex (patterns (storage w)) /\
  (forall q, q <> regex ->
     (In q (patterns (storage (snd (unblock regex w)))) <->
      In q (patterns (storage w)))) /\
  (NoDup (patterns (storage w)) ->
   ~ In regex (patterns (storage (snd (unblock regex w))))) /\
  listMode (storage (snd (unblock regex w))) = listMode (storage w) /\
  matching (storage (snd (unblock regex w))) = matching (storage w).
Proof.
  intros regex w. rewrite unblock_storage. unfold patterns at 1 2 4. simpl.
  split; [reflexivity|]. split; [|split; [|split; reflexivity]].
  - intros q Hq. now apply In_remove_first_other.
  - intros Hn. now apply NoDup_remove_first.
Qed.

Lemma unblock_removes_witness :
  ~ In "a" (patterns (storage (snd (unblock "a"
      (fresh (mkStorage (Some ["b"; "a"; "c"]) None None)))))).
Proof.
  apply (proj1 (proj2 (proj2 (unblock_removes "a"
           (fresh (mkStorage (Some ["b"; "a"; "c"]) None None)))))).
  simpl. repeat constructor; simpl; intuition discriminate.
Defined.

(** X4.  On a duplicate-free list, removing the same string a second
    time does nothing at all. *)
Theorem unblock_twice : forall regex w,
  NoDup (patterns (storage w)) ->
  unblock regex (snd (unblock regex w)) =
  (Returned VUndefined, snd (unblock regex w)).
Proof.
  intros regex w Hn.
  assert (Hout : ~ In regex (patterns (storage (snd (unblock regex w))))).
  { unfold patterns at 1. rewrite unblock_storage. simpl.
    now apply NoDup_remove_first. }
  assert (Hb : blacklist (storage (snd (unblock regex w))) =
               Some (remove_first regex (patterns (storage w))))
    by now rewrite unblock_storage.
  rewrite (unblock_run regex (snd (unblock regex w))).
  rewrite (load_present _ _ Hb).
  apply includes_not_In in Hout. now rewrite Hout.
Qed.

Lemma unblock_twice_witness :
  unblock "a" (snd (unblock "a" (fresh (mkStorage (Some ["b"; "a"]) None None)))) =
  (Returned VUndefined,
   snd (unblock "a" (fresh (mkStorage (Some ["b"; "a"]) None None)))).
Proof.
  apply (unblock_twice "a" (fresh (mkStorage (Some ["b"; "a"]) None None))).
  simpl. repeat constructor; simpl; intuition discriminate.
Defined.

(** ** Importing on the object the script creates *)

Lemma importBlacklist_loop_outcome : forall this blarr bl w,
  (exists bl', importBlacklist_loop this blarr bl w = (Returned bl', w)) \/
  (importBlacklist_loop this blarr bl w = (Thrown TypeError, w) /\
   hash this = None).
Proof.
  intros this blarr. induction blarr as [|piece rest IH]; intros bl w; simpl.
  - left. now exists bl.
  - destruct (JS.includes (JS.trim piece) bl); simpl; [apply IH|].
    destruct (hash this) as [tester|] eqn:Hh.
    + destruct (tester (JS.trim piece)); apply IH.
    + right. now split.
Qed.

Lemma importBlacklist_loop_missing : forall this blarr bl w,
  hash this = None ->
  (exists piece, In piece blarr /\ ~ In (JS.trim piece) bl) ->
  importBlacklist_loop this blarr bl w = (Thrown TypeError, w).
Proof.
  intros this blarr bl w Hh. induction blarr as [|p rest IH]; simpl.
  - intros [piece [[] _]].
  - intros [piece [[<-|Hin] Hn]].
    + apply includes_not_In in Hn. now rewrite Hn, Hh.
    + destruct (JS.includes (JS.trim p) bl); simpl.
      * apply IH. now exists piece.
      * now rewrite Hh.
Qed.

Lemma importBlacklist_loop_returned_present : forall this blarr bl w bl',
  hash this = None ->
  importBlacklist_loop this blarr bl w = (Returned bl', w) ->
  bl' = bl /\ forall piece, In piece blarr -> In (JS.trim piece) bl.
Proof.
  intros this blarr bl w bl' Hh. induction blarr as [|p rest IH]; simpl.
  - intros [= <-]. split; [reflexivity | intros piece []].
  - destruct (JS.includes (JS.trim p) bl) eqn:I; simpl.
    + intros H. destruct (IH H) as [E Hall]. split; [exact E|].
      intros piece [<-|Hin]; [now apply includes_In | now apply Hall].
    + rewrite Hh. discriminate.
Qed.

Lemma pieces_present_dec : forall blarr bl,
  (forall piece, In piece blarr -> In (JS.trim piece) bl) \/
  (exists piece, In piece blarr /\ ~ In (JS.trim piece) bl).
Proof.
  intros blarr bl. induction blarr as [|p rest [IH|[piece [Hin Hn]]]].
  - left. intros piece [].
  - destruct (in_dec string_dec (JS.trim p) bl) as [Hp|Hp].
    + left. intros piece [<-|Hin]; [exact Hp | now apply IH].
    + right. exists p. split; [now left | exact Hp].
  - right. exists piece. split; [now right | exact Hn].
Qed.

(** X5.  With no tester in [this.hash] -- as on the object the script
    creates -- [importBlacklist] never adds a pattern: the stored
    patterns after the call are those before it.  The call throws a
    [TypeError] exactly when the raw list is non-empty and the trimmed
    form of one of its pieces is not stored; otherwise it returns
    [undefined]. *)
Theorem importBlacklist_without_tester : forall this list w,
  hash this = None ->
  patterns (storage (snd (importBlacklist this list w))) = patterns (storage w) /\
  (fst (importBlacklist this list w) = Thrown TypeError <->
   JS.truthy list = true /\
   exists piece, In piece (JS.split_comma list) /\
                 ~ In (JS.trim piece) (patterns (storage w))) /\
  (fst (importBlacklist this list w) <> Thrown TypeError ->
   fst (importBlacklist this list w) = Returned VUndefined).
Proof.
  intros this list w Hh. rewrite importBlacklist_run.
  destruct (JS.truthy list) eqn:T.
  - destruct (importBlacklist_loop_outcome this (JS.split_comma list)
                (patterns (storage w)) (load w)) as [[bl' E]|[E _]]; rewrite E.
    + destruct (importBlacklist_loop_returned_present this _ _ _ _ Hh E)
        as [-> Hall].
      cbn [fst snd]. split; [reflexivity|]. split.
      * split; [discriminate|].
        intros [_ [piece [Hin Hn]]]. exfalso. apply Hn. now apply Hall.
      * intros _. reflexivity.
    + cbn [fst snd]. split; [apply load_patterns|]. split.
      * split; [|reflexivity]. intros _. split; [reflexivity|].
        destruct (pieces_present_dec (JS.split_comma list)
                    (patterns (storage w))) as [Hall|Hex]; [|exact Hex].
        rewrite (importBlacklist_loop_present this _ _ _ Hall) in E.
        discriminate.
      * intros K. now contradiction K.
  - cbn [fst snd]. split; [reflexivity|]. split.
    + split; [discriminate|]. intros [K _]. discriminate.
    + intros _. reflexivity.
Qed.

Lemma importBlacklist_without_tester_witness :
  patterns (storage (snd (importBlacklist new_HistoryBlock "a, b"
     (fresh (mkStorage (Some ["a"]) None None))))) = ["a"].
Proof.
  exact (proj1 (importBlacklist_without_tester new_HistoryBlock "a, b"
                  (fresh (mkStorage (Some ["a"]) None None)) eq_refl)).
Defined.

(** ** The message listener *)

Lemma importBlacklist_outcome : forall this list w,
  fst (importBlacklist this list w) = Returned VUndefined \/
  (fst (importBlacklist this list w) = Thrown TypeError /\ hash this = None).
Proof.
  intros this list w. rewrite importBlacklist_run.
  destruct (JS.truthy list); [|now left].
  destruct (importBlacklist_loop_outcome this (JS.split_comma list)
              (patterns (storage w)) (load w)) as [[bl' E]|[E Hh]]; rewrite E.
  - now left.
  - right. now split.
Qed.

(** X6.  Handling a message either ends with [undefined] -- no handler
    answers with a value -- or throws a [TypeError], and it throws only
    for an [importBlacklist] message on an object without a tester.  A
    message with any other action than the five, such as the
    [blacklistUpdated] broadcast itself, leaves the world untouched. *)
Theorem onMessage_outcome : forall this message w,
  (fst (onMessage this message w) = Returned VUndefined \/
   (fst (onMessage this message w) = Thrown TypeError /\
    action message = "importBlacklist" /\ hash this = None)) /\
  (action message <> "addToBlacklist" ->
   action message <> "importBlacklist" ->
   action message <> "removeFromBlacklist" ->
   action message <> "clearBlacklist" ->
   action message <> "changeListMode" ->
   onMessage this message w = (Returned VUndefined, w)).
Proof.
  intros this message w. unfold onMessage. split.
  - destruct (String.eqb (action message) "addToBlacklist");
      [left; apply block_returns|].
    destruct (String.eqb (action message) "importBlacklist") eqn:E.
    { apply String.eqb_eq in E.
      destruct (importBlacklist_outcome this (msg_blacklist message) w)
        as [H|[H Hh]]; [now left | right; now repeat split]. }
    destruct (String.eqb (action message) "removeFromBlacklist");
      [left; apply unblock_returns|].
    destruct (String.eqb (action message) "clearBlacklist");
      [left; now rewrite clearBlacklist_run|].
    destruct (String.eqb (action message) "changeListMode"); left.
    + unfold bind. now rewrite changeListMode_run.
    + reflexivity.
  - intros H1 H2 H3 H4 H5.
    apply String.eqb_neq in H1, H2, H3, H4, H5.
    now rewrite H1, H2, H3, H4, H5.
Qed.

Lemma onMessage_outcome_witness :
  onMessage new_HistoryBlock (mkMessage "blacklistUpdated" "" "" None)
            (fresh (mkStorage (Some ["a"]) None None)) =
  (Returned VUndefined, fresh (mkStorage (Some ["a"]) None None)).
Proof.
  apply (proj2 (onMessage_outcome new_HistoryBlock
                  (mkMessage "blacklistUpdated" "" "" None)
                  (fresh (mkStorage (Some ["a"]) None None))));
    discriminate.
Defined.

Lemma importBlacklist_frame : forall this list w,
  listMode (storage (snd (importBlacklist this list w))) = listMode (storage w) /\
  matching (storage (snd (importBlacklist this list w))) = matching (storage w).
Proof.
  intros this list w. rewrite importBlacklist_run.
  destruct (JS.truthy list); [|now split].
  destruct (importBlacklist_loop this (JS.split_comma list)
              (patterns (storage w)) (load w)) as [[bl'|e] w']; simpl;
    now rewrite load_listMode, load_matching.
Qed.

(** X7.  No message changes the key [matching]; only a [changeListMode]
    message can change the stored mode, and such a message never changes
    the stored pattern list. *)
Theorem onMessage_frame : forall this message w,
  matching (storage (snd (onMessage this message w))) = matching (storage w) /\
  (action message <> "changeListMode" ->
   listMode (storage (snd (onMessage this message w))) = listMode (storage w)) /\
  (action message = "changeListMode" ->
   blacklist (storage (snd (onMessage this message w))) = blacklist (storage w)).
Proof.
  intros this message w. unfold onMessage.
  destruct (String.eqb (action message) "addToBlacklist") eqn:E1.
  { apply String.eqb_eq in E1. rewrite block_storage. simpl.
    repeat split; congruence. }
  destruct (String.eqb (action message) "importBlacklist") eqn:E2.
  { apply String.eqb_eq in E2.
    destruct (importBlacklist_frame this (msg_blacklist message) w) as [L G].
    split; [exact G|]. split; [intros _; exact L|].
    intros K. rewrite E2 in K. discriminate. }
  destruct (String.eqb (action message) "removeFromBlacklist") eqn:E3.
  { apply String.eqb_eq in E3. rewrite unblock_storage. simpl.
    repeat split; congruence. }
  destruct (String.eqb (action message) "clearBlacklist") eqn:E4.
  { apply String.eqb_eq in E4. rewrite clearBlacklist_run. simpl.
    repeat split; congruence. }
  destruct (String.eqb (action message) "changeListMode") eqn:E5.
  - apply String.eqb_eq in E5. unfold bind. rewrite changeListMode_run. simpl.
    repeat split; congruence.
  - apply String.eqb_neq in E5. simpl. repeat split; congruence.
Qed.

Lemma onMessage_frame_witness :
  listMode (storage (snd (onMessage new_HistoryBlock
     (mkMessage "clearBlacklist" "" "" None)
     (fresh (mkStorage (Some ["a"]) (Some "whitelist") None))))) =
  Some "whitelist".
Proof.
  apply (proj1 (proj2 (onMessage_frame new_HistoryBlock
           (mkMessage "clearBlacklist" "" "" None)
           (fresh (mkStorage (Some ["a"]) (Some "whitelist") None))))).
  discriminate.
Defined.

(** ** The actions of the options page *)

Lemma send_each_add : forall this urls w,
  fst (Options_send_each this "addToBlacklist" urls w) = Returned tt /\
  patterns (storage (snd (Options_send_each this "addToBlacklist" urls w))) =
    patterns (storage w) ++ fresh_tokens (patterns (storage w)) urls /\
  listMode (storage (snd (Options_send_each this "addToBlacklist" urls w))) =
    listMode (storage w).
Proof.
  intros this urls. induction urls as [|u rest IH]; intros w.
  - simpl. now rewrite app_nil_r.
  - cbn [Options_send_each]. unfold bind.
    change (runtime_sendMessage this (mkMessage "addToBlacklist" u "" None) w)
      with (block u w).
    pose proof (block_returns u w) as R. pose proof (block_storage u w) as S.
    destruct (block u w) as [o w1]. simpl in R, S. subst o.
    destruct (IH w1) as [I1 [I2 I3]]. split; [exact I1|].
    rewrite I2, I3. unfold patterns at 1 2. rewrite S. cbn [blacklist listMode].
    split; [|reflexivity]. simpl.
    destruct (JS.includes u (patterns (storage w))); [reflexivity|].
    rewrite <- app_assoc. simpl. do 2 f_equal.
    apply fresh_tokens_ext. intros y. rewrite in_app_iff. simpl. tauto.
Qed.

Lemma send_each_remove : forall this urls w,
  fst (Options_send_each this "removeFromBlacklist" urls w) = Returned tt /\
  patterns (storage (snd (Options_send_each this "removeFromBlacklist" urls w))) =
    fold_left (fun l u => remove_first u l) urls (patterns (storage w)) /\
  listMode (storage (snd (Options_send_each this "removeFromBlacklist" urls w))) =
    listMode (storage w).
Proof.
  intros this urls. induction urls as [|u rest IH]; intros w.
  - simpl. now repeat split.
  - cbn [Options_send_each]. unfold bind.
    change (runtime_sendMessage this (mkMessage "removeFromBlacklist" u "" None) w)
      with (unblock u w).
    pose proof (unblock_returns u w) as R. pose proof (unblock_storage u w) as S.
    destruct (unblock u w) as [o w1]. simpl in R, S. subst o.
    destruct (IH w1) as [I1 [I2 I3]]. split; [exact I1|].
    rewrite I2, I3. unfold patterns at 1. rewrite S. cbn [blacklist listMode].
    now split.
Qed.

Lemma In_fold_remove_first : forall us l q,
  NoDup l ->
  (In q (fold_left (fun l u => remove_first u l) us l) <-> In q l /\ ~ In q us).
Proof.
  induction us as [|u rest IH]; intros l q Hn; simpl.
  - tauto.
  - destruct (NoDup_remove_first u l Hn) as [Hn' Hout].
    rewrite (IH _ q Hn'). destruct (string_dec q u) as [->|Hne].
    + split; [intros [K _]; contradiction | intros [_ K]; exfalso; apply K; now left].
    + rewrite (In_remove_first_other u q l Hne). split.
      * intros [K1 K2]. split; [exact K1|]. intros [E|K]; [congruence | contradiction].
      * intros [K1 K2]. split; [exact K1|]. intro K. apply K2. now right.
Qed.

(** X8.  [Options.addToBlacklist] stores the pieces of what was entered
    as they stand between the commas -- untrimmed, the empty piece
    included: after the call the patterns are the former ones followed,
    in order, by every piece that was neither stored nor an earlier
    piece.  The mode is untouched.  A dismissed or empty prompt does
    nothing. *)
Theorem Options_addToBlacklist_pieces : forall this input w,
  (entered input = true ->
   fst (Options_addToBlacklist this input w) = Returned VUndefined /\
   patterns (storage (snd (Options_addToBlacklist this input w))) =
     patterns (storage w)
       ++ fresh_tokens (patterns (storage w)) (JS.split_comma (text input)) /\
   listMode (storage (snd (Options_addToBlacklist this input w))) =
     listMode (storage w)) /\
  (entered input = false ->
   Options_addToBlacklist this input w = (Returned VUndefined, w)).
Proof.
  intros this input w. unfold Options_addToBlacklist. split; intros E; rewrite E.
  - unfold bind, Options_renderBlacklist, storage_get.
    destruct (send_each_add this (JS.split_comma (text input)) w) as [R [P L]].
    destruct (Options_send_each this "addToBlacklist"
                (JS.split_comma (text input)) w) as [o w1].
    simpl in R, P, L. subst o. simpl. now repeat split.
  - reflexivity.
Qed.

Lemma Options_addToBlacklist_pieces_witness :
  patterns (storage (snd (Options_addToBlacklist new_HistoryBlock
     (Some "a, b,,a") (fresh (mkStorage (Some ["b"]) None None))))) =
  ["b"; "a"; " b"; ""].
Proof.
  exact (proj1 (proj2 (proj1 (Options_addToBlacklist_pieces new_HistoryBlock
           (Some "a, b,,a") (fresh (mkStorage (Some ["b"]) None None)))
           eq_refl))).
Defined.

(** X9.  [Options.removeFromBlacklist] removes, piece by piece and
    untrimmed, the first occurrence of each piece of what was entered.
    On a duplicate-free list a string is stored afterwards exactly when
    it was stored before and is none of the pieces.  A dismissed or
    empty prompt does nothing. *)
Theorem Options_removeFromBlacklist_pieces : forall this input w,
  (entered input = true ->
   fst (Options_removeFromBlacklist this input w) = Returned VUndefined /\
   patterns (storage (snd (Options_removeFromBlacklist this input w))) =
     fold_left (fun l u => remove_first u l) (JS.split_comma (text input))
               (patterns (storage w)) /\
   (NoDup (patterns (storage w)) ->
    forall q,
      In q (patterns (storage (snd (Options_removeFromBlacklist this input w))))
      <-> In q (patterns (storage w)) /\ ~ In q (JS.split_comma (text input)))) /\
  (entered input = false ->
   Options_removeFromBlacklist this input w = (Returned VUndefined, w)).
Proof.
  intros this input w. unfold Options_removeFromBlacklist.
  split; intros E; rewrite E.
  - unfold bind, Options_renderBlacklist, storage_get.
    destruct (send_each_remove this (JS.split_comma (text input)) w) as [R [P L]].
    destruct (Options_send_each this "removeFromBlacklist"
                (JS.split_comma (text input)) w) as [o w1].
    simpl in R, P, L. subst o. simpl. split; [reflexivity|]. split; [exact P|].
    intros Hn q. rewrite P. now apply In_fold_remove_first.
  - reflexivity.
Qed.

Lemma Options_removeFromBlacklist_pieces_witness :
  patterns (storage (snd (Options_removeFromBlacklist new_HistoryBlock
     (Some "c,a") (fresh (mkStorage (Some ["a"; "b"; "c"]) None None))))) =
  ["b"].
Proof.
  exact (proj1 (proj2 (proj1 (Options_removeFromBlacklist_pieces new_HistoryBlock
           (Some "c,a") (fresh (mkStorage (Some ["a"; "b"; "c"]) None None)))
           eq_refl))).
Defined.



(** ** Visits, and sequences of events *)

Lemma deleted_urls_app : forall a b,
  deleted_urls (a ++ b) = deleted_urls a ++ deleted_urls b.
Proof.
  intros a b. induction a as [|e a IH]; simpl; [reflexivity|].
  destruct e; simpl; now rewrite IH.
Qed.

Lemma load_deleted : forall w,
  deleted_urls (trace (load w)) = deleted_urls (trace w).
Proof.
  intros [[b m g] tr]. unfold load. simpl. destruct b; simpl; [reflexivity|].
  now rewrite deleted_urls_app, app_nil_r.
Qed.

Lemma load_NoDup : forall w,
  NoDup (patterns (storage w)) -> NoDup (patterns (storage (load w))).
Proof. intros w H. now rewrite load_patterns. Qed.

Lemma block_deleted : forall regex w,
  deleted_urls (trace (snd (block regex w))) = deleted_urls (trace w).
Proof.
  intros regex w. rewrite block_run.
  destruct (JS.includes regex (patterns (storage w))); simpl.
  - apply load_deleted.
  - now rewrite !deleted_urls_app, load_deleted, !app_nil_r.
Qed.

Lemma unblock_deleted : forall regex w,
  deleted_urls (trace (snd (unblock regex w))) = deleted_urls (trace w).
Proof.
  intros regex w. rewrite unblock_run.
  destruct (JS.includes regex (patterns (storage w))); simpl.
  - now rewrite !deleted_urls_app, load_deleted, !app_nil_r.
  - apply load_deleted.
Qed.

Lemma importBlacklist_deleted : forall this list w,
  deleted_urls (trace (snd (importBlacklist this list w))) =
  deleted_urls (trace w).
Proof.
  intros this list w. rewrite importBlacklist_run.
  destruct (JS.truthy list); [|reflexivity].
  destruct (importBlacklist_loop this (JS.split_comma list)
              (patterns (storage w)) (load w)) as [[bl'|e] w']; simpl.
  - now rewrite !deleted_urls_app, load_deleted, !app_nil_r.
  - apply load_deleted.
Qed.

Lemma onMessage_deleted : forall this message w,
  deleted_urls (trace (snd (onMessage this message w))) = deleted_urls (trace w).
Proof.
  intros this message w. unfold onMessage.
  destruct (String.eqb (action message) "addToBlacklist");
    [apply block_deleted|].
  destruct (String.eqb (action message) "importBlacklist");
    [apply importBlacklist_deleted|].
  destruct (String.eqb (action message) "removeFromBlacklist");
    [apply unblock_deleted|].
  destruct (String.eqb (action message) "clearBlacklist").
  { rewrite clearBlacklist_run. simpl.
    now rewrite deleted_urls_app, app_nil_r. }
  destruct (String.eqb (action message) "changeListMode"); [|reflexivity].
  unfold bind. rewrite changeListMode_run. simpl.
  now rewrite deleted_urls_app, app_nil_r.
Qed.

Lemma onContextMenuItemClicked_deleted : forall menuItemId url w,
  deleted_urls (trace (snd (onContextMenuItemClicked menuItemId url w))) =
  deleted_urls (trace w).
Proof.
  intros menuItemId url w. unfold onContextMenuItemClicked.
  destruct (String.eqb menuItemId "blockthis"); [apply block_deleted|].
  destruct (String.eqb menuItemId "unblockthis"); [apply unblock_deleted|].
  reflexivity.
Qed.

Lemma block_NoDup : forall regex w,
  NoDup (patterns (storage w)) -> NoDup (patterns (storage (snd (block regex w)))).
Proof.
  intros regex w Hn. unfold patterns at 1. rewrite block_storage. simpl.
  destruct (JS.includes regex (patterns (storage w))) eqn:I; [exact Hn|].
  apply NoDup_snoc; [exact Hn | now apply includes_not_In].
Qed.

Lemma unblock_NoDup : forall regex w,
  NoDup (patterns (storage w)) ->
  NoDup (patterns (storage (snd (unblock regex w)))).
Proof.
  intros regex w Hn. unfold patterns at 1. rewrite unblock_storage. simpl.
  now apply NoDup_remove_first.
Qed.

Lemma importBlacklist_NoDup : forall this list w,
  NoDup (patterns (storage w)) ->
  NoDup (patterns (storage (snd (importBlacklist this list w)))).
Proof.
  intros this list w Hn. rewrite importBlacklist_run.
  destruct (JS.truthy list); [|exact Hn].
  pose proof (importBlacklist_loop_NoDup this (JS.split_comma list)
                (patterns (storage w)) (load w)) as HL.
  destruct (importBlacklist_loop this (JS.split_comma list)
              (patterns (storage w)) (load w)) as [[bl'|e] w']; simpl.
  - unfold patterns at 1. simpl. now apply HL.
  - now rewrite load_patterns.
Qed.

Lemma onMessage_NoDup : forall this message w,
  NoDup (patterns (storage w)) ->
  NoDup (patterns (storage (snd (onMessage this message w)))).
Proof.
  intros this message w Hn. unfold onMessage.
  destruct (String.eqb (action message) "addToBlacklist");
    [now apply block_NoDup|].
  destruct (String.eqb (action message) "importBlacklist");
    [now apply importBlacklist_NoDup|].
  destruct (String.eqb (action message) "removeFromBlacklist");
    [now apply unblock_NoDup|].
  destruct (String.eqb (action message) "clearBlacklist").
  { rewrite clearBlacklist_run. simpl. constructor. }
  destruct (String.eqb (action message) "changeListMode"); [|exact Hn].
  unfold bind. rewrite changeListMode_run. exact Hn.
Qed.

Lemma onContextMenuItemClicked_NoDup : forall menuItemId url w,
  NoDup (patterns (storage w)) ->
  NoDup (patterns (storage (snd (onContextMenuItemClicked menuItemId url w)))).
Proof.
  intros menuItemId url w Hn. unfold onContextMenuItemClicked.
  destruct (String.eqb menuItemId "blockthis"); [now apply block_NoDup|].
  destruct (String.eqb menuItemId "unblockthis"); [now apply unblock_NoDup|].
  exact Hn.
Qed.

Section EventProperties.

Variable RegExp : string -> option (string -> bool).

Lemma isBlacklist_other_mode : forall st,
  listMode st <> Some "blacklist" -> isBlacklist st = false.
Proof.
  intros st H. unfold isBlacklist. destruct (listMode st) as [m|]; [|reflexivity].
  apply String.eqb_neq. intro E. apply H. now subst.
Qed.

(** X11.  The visit filter tests the stored mode against the very string
    ["blacklist"]; under every other stored value -- ["whitelist"], a
    misspelt or unrecognised mode, no mode -- it works as a whitelist:
    the address is purged exactly when every stored pattern is valid and
    none matches, and an address that a pattern matches is kept. *)
Theorem onPageVisited_other_mode : forall url w,
  listMode (storage w) <> Some "blacklist" ->
  (purged RegExp url w <->
   Forall (valid RegExp) (patterns (storage w)) /\
   forall p, In p (patterns (storage w)) -> ~ matches RegExp p url) /\
  (forall pre p post,
     patterns (storage w) = pre ++ p :: post ->
     Forall (valid RegExp) pre ->
     matches RegExp p url ->
     retained RegExp url w).
Proof.
  intros url w Hm. pose proof (isBlacklist_other_mode _ Hm) as B. split.
  - split.
    + intros Hp. apply purged_inv in Hp.
      destruct Hp as [[Ht _] | [_ Hr]]; [congruence|]. split.
      * eapply Forall_impl; [|exact Hr]. intros q. apply rejects_valid.
      * intros p Hin. rewrite Forall_forall in Hr.
        apply rejects_not_matches. now apply Hr.
    + intros [Hv Hn].
      assert (Hr : Forall (fun q => rejects RegExp q url) (patterns (storage w))).
      { rewrite Forall_forall in *. intros q Hq.
        apply valid_not_matches_rejects; [now apply Hv | now apply Hn]. }
      pose proof (onPageVisited_not_found RegExp url w Hr) as H.
      now rewrite B in H.
  - intros pre p post E Hv M.
    pose proof (onPageVisited_found RegExp url w pre p post E Hv M) as H.
    now rewrite B in H.
Qed.

(** X12.  A visit ends in one of three ways: the address is deleted from
    the history, it is kept, or the handler throws a [SyntaxError]; it
    never throws anything else and never has another effect.  It throws
    exactly when an invalid pattern is stored with no match among the
    patterns before it; so with only valid patterns stored every visit
    is decided. *)
Theorem onPageVisited_outcomes : forall url w,
  (purged RegExp url w \/ retained RegExp url w \/ aborted RegExp url w) /\
  (aborted RegExp url w <->
   exists pre p post,
     patterns (storage w) = pre ++ p :: post /\
     Forall (fun q => rejects RegExp q url) pre /\ RegExp p = None) /\
  (Forall (valid RegExp) (patterns (storage w)) ->
   purged RegExp url w \/ retained RegExp url w).
Proof.
  intros url w.
  assert (C : (purged RegExp url w \/ retained RegExp url w) \/
              (aborted RegExp url w /\
               exists pre p post,
                 patterns (storage w) = pre ++ p :: post /\
                 Forall (fun q => rejects RegExp q url) pre /\ RegExp p = None)).
  { unfold purged, retained, aborted. rewrite onPageVisited_run.
    destruct (scan_cases RegExp url (patterns (storage w)) (load w))
      as [[S D]|[[S D]|[S D]]]; rewrite S; cbn [fst].
    - left. destruct (isBlacklist (storage w)); simpl; [now left | now right].
    - left. destruct (isBlacklist (storage w)); simpl; [now right | now left].
    - right. split; [reflexivity | exact D]. }
  split; [|split].
  - destruct C as [[H|H]|[H _]]; tauto.
  - split.
    + intros A. destruct C as [[H|H]|[_ D]]; [| |exact D];
        unfold purged, retained, aborted in *; congruence.
    + intros [pre [p [post [E [Hr N]]]]].
      exact (onPageVisited_throws RegExp url w pre p post E Hr N).
  - intros Hv. destruct C as [H|[_ [pre [p [post [E [_ N]]]]]]]; [exact H|].
    exfalso. rewrite E in Hv. apply Forall_app in Hv. destruct Hv as [_ Hv].
    inversion Hv as [|? ? Hp _]. now apply Hp.
Qed.

End EventProperties.

Lemma onPageVisited_other_mode_witness :
  purged Sample.RegExp "http://a/"
    (fresh (mkStorage (Some ["b"]) (Some "Blacklist") None)) /\
  retained Sample.RegExp "http://a/"
    (fresh (mkStorage (Some ["a"]) (Some "foo") None)).
Proof.
  split.
  - apply (proj1 (onPageVisited_other_mode Sample.RegExp "http://a/"
             (fresh (mkStorage (Some ["b"]) (Some "Blacklist") None))
             ltac:(discriminate))).
    split.
    + constructor; [discriminate | constructor].
    + intros p [<-|[]] [t [E T]]. injection E as <-. discriminate.
  - apply (proj2 (onPageVisited_other_mode Sample.RegExp "http://a/"
             (fresh (mkStorage (Some ["a"]) (Some "foo") None))
             ltac:(discriminate)) [] "a" []).
    + reflexivity.
    + constructor.
    + exists (Sample.contains "a"). split; reflexivity.
Defined.

Lemma onPageVisited_outcomes_witness :
  purged Sample.RegExp "http://a/"
    (fresh (mkStorage (Some ["a"; "b"]) (Some "blacklist") None)) \/
  retained Sample.RegExp "http://a/"
    (fresh (mkStorage (Some ["a"; "b"]) (Some "blacklist") None)).
Proof.
  apply (proj2 (proj2 (onPageVisited_outcomes Sample.RegExp "http://a/"
           (fresh (mkStorage (Some ["a"; "b"]) (Some "blacklist") None))))).
  simpl. repeat constructor; discriminate.
Defined.

Section DispatchProperties.

Variable RegExp : string -> option (string -> bool).

Lemma onPageVisited_deleted : forall url w u,
  In u (deleted_urls (trace (snd (onPageVisited RegExp url w)))) ->
  In u (deleted_urls (trace w)) \/ u = url.
Proof.
  intros url w u. rewrite onPageVisited_run.
  destruct (fst (scan RegExp url (patterns (storage w)) (load w)))
    as [found|e]; [|simpl; rewrite load_deleted; now left].
  destruct ((isBlacklist (storage w) && found)
            || (negb (isBlacklist (storage w)) && negb found)); simpl.
  - rewrite deleted_urls_app, load_deleted, in_app_iff. simpl.
    intros [H|[H|[]]]; [now left | now right].
  - rewrite load_deleted. now left.
Qed.

Lemma listener_NoDup : forall this i w,
  NoDup (patterns (storage w)) ->
  NoDup (patterns (storage (snd (listener RegExp this i w)))).
Proof.
  intros this [url|menuItemId url|message] w Hn; simpl.
  - now rewrite onPageVisited_storage, load_patterns.
  - now apply onContextMenuItemClicked_NoDup.
  - now apply onMessage_NoDup.
Qed.

(** X13.  No sequence of visits, menu clicks and messages brings a
    duplicate into the stored pattern list: if the list is free of
    duplicates before the events -- as it is on an empty storage area --
    it is so after them, whether or not a handler threw on the way. *)
Theorem dispatch_NoDup : forall this events w,
  NoDup (patterns (storage w)) ->
  NoDup (patterns (storage (dispatch RegExp this events w))).
Proof.
  intros this events. induction events as [|i rest IH]; intros w Hn; simpl.
  - exact Hn.
  - apply IH. now apply listener_NoDup.
Qed.

(** X14.  The script asks the history to forget only addresses that were
    visited: every address deleted during a sequence of events is the
    address of one of its visits (or was deleted before).  Menu clicks
    and messages delete nothing. *)
Theorem dispatch_deletes_only_visited : forall this events w u,
  In u (deleted_urls (trace (dispatch RegExp this events w))) ->
  In u (deleted_urls (trace w)) \/ In u (visited_urls events).
Proof.
  intros this events. induction events as [|i rest IH]; intros w u H; simpl in *.
  - now left.
  - destruct (IH _ _ H) as [K|K].
    + destruct i as [url|menuItemId url|message]; simpl in *.
      * destruct (onPageVisited_deleted url w u K) as [L|L];
          [now left | right; left; now subst].
      * rewrite onContextMenuItemClicked_deleted in K. now left.
      * rewrite onMessage_deleted in K. now left.
    + right. destruct i; simpl; [now right | exact K | exact K].
Qed.

(** X15.  [clearBlacklist] leaves the empty list under [blacklist] and
    keeps the mode and the other keys.  A visit right after it is
    therefore decided by the mode alone: kept when the mode is
    ["blacklist"], purged under any other mode.  The options page's
    reset does the same once confirmed, and nothing when declined. *)
Theorem clearBlacklist_then_visit : forall this url w,
  storage (snd (clearBlacklist w)) =
    mkStorage (Some []) (listMode (storage w)) (matching (storage w)) /\
  (if isBlacklist (storage w)
   then retained RegExp url (snd (clearBlacklist w))
   else purged RegExp url (snd (clearBlacklist w))) /\
  storage (snd (Options_resetBlacklist this true w)) =
    mkStorage (Some []) (listMode (storage w)) (matching (storage w)) /\
  Options_resetBlacklist this false w = (Returned VUndefined, w).
Proof.
  intros this url w. split; [|split; [|split]].
  - now rewrite clearBlacklist_run.
  - pose proof (onPageVisited_not_found RegExp url (snd (clearBlacklist w))) as H.
    rewrite clearBlacklist_run in *. simpl in H.
    change (isBlacklist (storage w)) with
      (isBlacklist (mkStorage (Some []) (listMode (storage w))
                              (matching (storage w)))).
    apply H. constructor.
  - unfold Options_resetBlacklist, runtime_sendMessage, bind.
    change (onMessage this (mkMessage "clearBlacklist" "" "" None) w)
      with (clearBlacklist w).
    now rewrite clearBlacklist_run.
  - reflexivity.
Qed.

End DispatchProperties.

Lemma dispatch_NoDup_witness :
  NoDup (patterns (storage (dispatch Sample.RegExp new_HistoryBlock
     [Received (mkMessage "addToBlacklist" "a" "" None);
      Clicked "blockthis" "a";
      Received (mkMessage "importBlacklist" "" "a,b" None);
      Visited "http://a/";
      Clicked "unblockthis" "a"]
     (fresh empty_storage)))).
Proof.
  apply (dispatch_NoDup Sample.RegExp new_HistoryBlock).
  simpl. constructor.
Defined.

Lemma dispatch_deletes_only_visited_witness :
  In "http://a/" (deleted_urls []) \/
  In "http://a/"
     (visited_urls [Received (mkMessage "addToBlacklist" "a" "" None);
                    Received (mkMessage "changeListMode" "" "" (Some "blacklist"));
                    Visited "http://a/"; Visited "http://b/"]).
Proof.
  apply (dispatch_deletes_only_visited Sample.RegExp new_HistoryBlock
           [Received (mkMessage "addToBlacklist" "a" "" None);
            Received (mkMessage "changeListMode" "" "" (Some "blacklist"));
            Visited "http://a/"; Visited "http://b/"]
           (fresh empty_storage) "http://a/").
  simpl. now left.
Defined.

Section AddThenVisit.

Variable RegExp : string -> option (string -> bool).

(** X16.  Adding a pattern takes effect on the next visit.  When every
    pattern stored so far is valid and the added one matches the
    address, the visit after [block] purges the address in blacklist
    mode and keeps it under any other mode. *)
Theorem block_then_visit : forall regex url w,
  Forall (valid RegExp) (patterns (storage w)) ->
  matches RegExp regex url ->
  if isBlacklist (storage w)
  then purged RegExp url (snd (block regex w))
  else retained RegExp url (snd (block regex w)).
Proof.
  intros regex url w Hv Hm.
  assert (D : exists pre post,
             patterns (storage (snd (block regex w))) = pre ++ regex :: post /\
             Forall (valid RegExp) pre).
  { unfold patterns at 1. rewrite block_storage. simpl.
    destruct (JS.includes regex (patterns (storage w))) eqn:I.
    - apply includes_In, in_first_split in I.
      destruct I as [pre [post [E _]]]. exists pre, post. split; [exact E|].
      rewrite E in Hv. now apply Forall_app in Hv.
    - exists (patterns (storage w)), []. now split. }
  destruct D as [pre [post [E Hpre]]].
  pose proof (onPageVisited_found RegExp url (snd (block regex w))
                pre regex post E Hpre Hm) as H.
  assert (B : isBlacklist (storage (snd (block regex w))) =
              isBlacklist (storage w))
    by (unfold isBlacklist; now rewrite block_storage).
  now rewrite B in H.
Qed.

End AddThenVisit.

Lemma block_then_visit_witness :
  purged Sample.RegExp "https://evil.com/x"
    (snd (block "evil" (fresh (mkStorage (Some ["good"]) (Some "blacklist") None)))).
Proof.
  apply (block_then_visit Sample.RegExp "evil" "https://evil.com/x"
           (fresh (mkStorage (Some ["good"]) (Some "blacklist") None))).
  - simpl. constructor; [discriminate | constructor].
  - exists (Sample.contains "evil"). split; reflexivity.
Defined.
